(** * kubectl-gitlab_bootstrap: the bootstrap pipeline of pkg/cmd/gitlab-bootstrap.go

    A shallow embedding of the methods of [GitLabBootstrapOptions]
    (Complete, Validate, Run and the four steps Run chains) as programs of a
    small state monad.  The state carries the options aggregate the Go
    methods mutate through their receiver, the outside world (operating
    system, Kubernetes API server, GitLab) and the trace of the calls issued
    so far.  The client libraries are an interface ([Env]); the theorems
    hold for every implementation of it, and [Fake] gives an in-memory one
    on which the pipeline is run on concrete inputs. *)

From Stdlib Require Import String Ascii ZArith List Bool DecimalString Lia.
Import ListNotations.
Open Scope string_scope.

(** ** Go errors (fmt.Errorf, github.com/pkg/errors) *)

(** An error value: a plain message, or a cause annotated by errors.Wrap. *)
Inductive error : Type :=
| errorString (s : string)
| withMessage (cause : error) (msg : string).

(** The [error] interface: [None] is Go's nil. *)
Definition goerror : Type := option error.

(** [err.Error()]: pkg/errors prints the message, a colon and the cause. *)
Fixpoint Error (e : error) : string :=
  match e with
  | errorString s => s
  | withMessage cause msg => msg ++ ": " ++ Error cause
  end.

(** [errors.Wrap(err, message)] of github.com/pkg/errors v0.8.0:
    "If err is nil, Wrap returns nil." *)
Definition errors_Wrap (err : goerror) (message : string) : goerror :=
  match err with
  | None => None
  | Some e => Some (withMessage e message)
  end.

(** [fmt.Errorf] with a format that has no verbs. *)
Definition fmt_Errorf (format : string) : goerror := Some (errorString format).

(** The message attached last, which tells the return sites apart. *)
Definition outer_message (e : error) : string :=
  match e with
  | errorString s => s
  | withMessage _ msg => msg
  end.

(** ** Strings *)

Definition nl : string := String (ascii_of_nat 10) EmptyString.

(** The %d verb of fmt on an int. *)
Definition fmt_d (n : Z) : string := NilZero.string_of_int (Z.to_int n).

(** [regexp.MatchString(pattern, s)] for the one pattern the program uses,
    ^gitlab-admin-token- : a start anchor followed by literal characters (a
    dash outside a bracket is literal).  The pattern compiles, so the error
    is nil, and it matches exactly the strings that begin with the literal. *)
Definition token_pattern : string := "^gitlab-admin-token-".

Definition regexp_MatchString_token (s : string) : bool * goerror :=
  (String.prefix "gitlab-admin-token-" s, None).

(** [s] ends in [suffix]. *)
Definition ends_in (suffix s : string) : Prop := exists front, s = front ++ suffix.

(** ** Kubernetes API objects (k8s.io/api, k8s.io/apimachinery)

    The records keep the fields the program reads or writes and enough of
    the others to say that a field was left at its zero value. *)

Module metav1.
Record ObjectMeta : Type := {
  Name : string;
  GenerateName : string;
  Namespace : string;
  Labels : list (string * string);
  Annotations : list (string * string)
}.

(** [metav1.ObjectMeta{Name: name}] *)
Definition named (name : string) : ObjectMeta :=
  {| Name := name; GenerateName := ""; Namespace := "";
     Labels := []; Annotations := [] |}.
End metav1.

Module v1.
Record ObjectReference : Type := {
  ref_Kind : string;
  ref_Namespace : string;
  ref_Name : string
}.

Record ServiceAccount : Type := {
  sa_ObjectMeta : metav1.ObjectMeta;
  Secrets : list ObjectReference;
  ImagePullSecrets : list string;
  AutomountServiceAccountToken : option bool
}.

(** [map[string][]byte]: a missing key reads as the nil slice. *)
Record Secret : Type := {
  secret_ObjectMeta : metav1.ObjectMeta;
  Data : list (string * string);
  Type_ : string
}.

Fixpoint lookup (key : string) (m : list (string * string)) : option string :=
  match m with
  | [] => None
  | (k, v) :: rest => if k =? key then Some v else lookup key rest
  end.

(** [string(secret.Data[key])] *)
Definition data_string (s : Secret) (key : string) : string :=
  match lookup key (Data s) with
  | Some bytes => bytes
  | None => ""
  end.
End v1.

Module rbacv1.
Definition ServiceAccountKind : string := "ServiceAccount".

Record Subject : Type := {
  subj_Kind : string;
  subj_APIGroup : string;
  subj_Name : string;
  subj_Namespace : string
}.

Record RoleRef : Type := {
  role_APIGroup : string;
  role_Kind : string;
  role_Name : string
}.

Record ClusterRoleBinding : Type := {
  crb_ObjectMeta : metav1.ObjectMeta;
  Subjects : list Subject;
  crb_RoleRef : RoleRef
}.
End rbacv1.

(** ** Kubernetes client configuration (k8s.io/client-go) *)

Module restclient.
Record Config : Type := {
  Host : string;
  CAData : string          (* TLSClientConfig.CAData *)
}.
End restclient.

Module clientcmdapi.
Record Context : Type := {
  Cluster : string;
  AuthInfo : string
}.

(** [Contexts] is a map from context name to context; the list holds one
    pair per key. *)
Record Config : Type := {
  Contexts : list (string * Context);
  CurrentContext : string
}.

Fixpoint lookup (key : string) (m : list (string * Context)) : option Context :=
  match m with
  | [] => None
  | (k, v) :: rest => if k =? key then Some v else lookup key rest
  end.
End clientcmdapi.

Module kubernetes.
(** The client set is a handle on the API server its configuration names. *)
Record Clientset : Type := { config : restclient.Config }.
End kubernetes.

(** ** GitLab client (github.com/xanzy/go-gitlab) *)

Module gitlab.
Record Client : Type := {
  token : string;
  baseURL : string
}.

Definition defaultBaseURL : string := "https://gitlab.com/".

(** [gitlab.NewClient(nil, token)] *)
Definition NewClient (tok : string) : Client :=
  {| token := tok; baseURL := defaultBaseURL |}.

(** [c.SetBaseURL(urlStr)]; the program drops the error it returns, and
    the parsing of the URL is left to the world that answers the calls. *)
Definition SetBaseURL (urlStr : string) (c : Client) : Client :=
  {| token := token c; baseURL := urlStr |}.

Record AddPlatformKubernetesOptions : Type := {
  APIURL : option string;
  Token : option string;
  CaCert : option string;
  Namespace : option string;
  AuthorizationType : option string
}.

Record AddClusterOptions : Type := {
  Name : option string;
  Domain : option string;
  Enabled : option bool;
  Managed : option bool;
  EnvironmentScope : option string;
  PlatformKubernetes : option AddPlatformKubernetesOptions
}.

Record AddGroupPlatformKubernetesOptions : Type := {
  g_APIURL : option string;
  g_Token : option string;
  g_CaCert : option string;
  g_Namespace : option string;
  g_AuthorizationType : option string
}.

Record AddGroupClusterOptions : Type := {
  g_Name : option string;
  g_Domain : option string;
  g_Enabled : option bool;
  g_Managed : option bool;
  g_EnvironmentScope : option string;
  g_PlatformKubernetes : option AddGroupPlatformKubernetesOptions
}.

Record Project : Type := {
  p_ID : Z;
  p_WebURL : string
}.

Record Group : Type := {
  grp_ID : Z;
  grp_WebURL : string
}.

(** [Project] and [Group] are pointers in the responses: [None] is nil. *)
Record ProjectCluster : Type := {
  pc_ID : Z;
  pc_Name : string;
  pc_Project : option Project
}.

Record GroupCluster : Type := {
  gc_ID : Z;
  gc_Name : string;
  gc_Group : option Group
}.
End gitlab.

(** ** The options aggregate *)

Record GitLabBootstrapOptions : Type := {
  ConfigFlags_KubeConfig : string;     (* *o.ConfigFlags.KubeConfig *)
  GitLabAPIToken : string;
  GitLabProjectID : string;
  GitLabURL : string;
  GitLabGroupCluster : bool;
  KubeConfig : string;
  RestConfig : option restclient.Config;
  KubeAPI : option clientcmdapi.Config;
  KubeClientSet : option kubernetes.Clientset;
  ClusterName : string;
  ClusterHost : string;
  ClusterCA : string;
  ServiceAccountToken : string;
  GitLabAPI : option gitlab.Client
}.

(** [NewGitLabBootstrapOptions] followed by the parsing of the flags
    --kubeconfig, --gitlab-api-token, --gitlab-url and --gitlab-use-group
    (each defaults to the empty string or false). *)
Definition NewGitLabBootstrapOptions
    (kubeconfig apiToken url : string) (useGroup : bool) : GitLabBootstrapOptions :=
  {| ConfigFlags_KubeConfig := kubeconfig;
     GitLabAPIToken := apiToken;
     GitLabProjectID := "";
     GitLabURL := url;
     GitLabGroupCluster := useGroup;
     KubeConfig := "";
     RestConfig := None;
     KubeAPI := None;
     KubeClientSet := None;
     ClusterName := "";
     ClusterHost := "";
     ClusterCA := "";
     ServiceAccountToken := "";
     GitLabAPI := None |}.

Definition set_GitLabAPIToken (v : string) (o : GitLabBootstrapOptions) :=
  {| ConfigFlags_KubeConfig := ConfigFlags_KubeConfig o; GitLabAPIToken := v;
     GitLabProjectID := GitLabProjectID o; GitLabURL := GitLabURL o;
     GitLabGroupCluster := GitLabGroupCluster o; KubeConfig := KubeConfig o;
     RestConfig := RestConfig o; KubeAPI := KubeAPI o;
     KubeClientSet := KubeClientSet o; ClusterName := ClusterName o;
     ClusterHost := ClusterHost o; ClusterCA := ClusterCA o;
     ServiceAccountToken := ServiceAccountToken o; GitLabAPI := GitLabAPI o |}.

Definition set_GitLabProjectID (v : string) (o : GitLabBootstrapOptions) :=
  {| ConfigFlags_KubeConfig := ConfigFlags_KubeConfig o; GitLabAPIToken := GitLabAPIToken o;
     GitLabProjectID := v; GitLabURL := GitLabURL o;
     GitLabGroupCluster := GitLabGroupCluster o; KubeConfig := KubeConfig o;
     RestConfig := RestConfig o; KubeAPI := KubeAPI o;
     KubeClientSet := KubeClientSet o; ClusterName := ClusterName o;
     ClusterHost := ClusterHost o; ClusterCA := ClusterCA o;
     ServiceAccountToken := ServiceAccountToken o; GitLabAPI := GitLabAPI o |}.

Definition set_KubeConfig (v : string) (o : GitLabBootstrapOptions) :=
  {| ConfigFlags_KubeConfig := ConfigFlags_KubeConfig o; GitLabAPIToken := GitLabAPIToken o;
     GitLabProjectID := GitLabProjectID o; GitLabURL := GitLabURL o;
     GitLabGroupCluster := GitLabGroupCluster o; KubeConfig := v;
     RestConfig := RestConfig o; KubeAPI := KubeAPI o;
     KubeClientSet := KubeClientSet o; ClusterName := ClusterName o;
     ClusterHost := ClusterHost o; ClusterCA := ClusterCA o;
     ServiceAccountToken := ServiceAccountToken o; GitLabAPI := GitLabAPI o |}.

(** [o.RestConfig = config; o.ClusterHost = config.Host;
     o.ClusterCA = string(config.TLSClientConfig.CAData)] *)
Definition set_RestConfig (c : restclient.Config) (o : GitLabBootstrapOptions) :=
  {| ConfigFlags_KubeConfig := ConfigFlags_KubeConfig o; GitLabAPIToken := GitLabAPIToken o;
     GitLabProjectID := GitLabProjectID o; GitLabURL := GitLabURL o;
     GitLabGroupCluster := GitLabGroupCluster o; KubeConfig := KubeConfig o;
     RestConfig := Some c; KubeAPI := KubeAPI o;
     KubeClientSet := KubeClientSet o; ClusterName := ClusterName o;
     ClusterHost := restclient.Host c; ClusterCA := restclient.CAData c;
     ServiceAccountToken := ServiceAccountToken o; GitLabAPI := GitLabAPI o |}.

Definition set_KubeAPI (api : clientcmdapi.Config) (o : GitLabBootstrapOptions) :=
  {| ConfigFlags_KubeConfig := ConfigFlags_KubeConfig o; GitLabAPIToken := GitLabAPIToken o;
     GitLabProjectID := GitLabProjectID o; GitLabURL := GitLabURL o;
     GitLabGroupCluster := GitLabGroupCluster o; KubeConfig := KubeConfig o;
     RestConfig := RestConfig o; KubeAPI := Some api;
     KubeClientSet := KubeClientSet o; ClusterName := ClusterName o;
     ClusterHost := ClusterHost o; ClusterCA := ClusterCA o;
     ServiceAccountToken := ServiceAccountToken o; GitLabAPI := GitLabAPI o |}.

Definition set_ClusterName (v : string) (o : GitLabBootstrapOptions) :=
  {| ConfigFlags_KubeConfig := ConfigFlags_KubeConfig o; GitLabAPIToken := GitLabAPIToken o;
     GitLabProjectID := GitLabProjectID o; GitLabURL := GitLabURL o;
     GitLabGroupCluster := GitLabGroupCluster o; KubeConfig := KubeConfig o;
     RestConfig := RestConfig o; KubeAPI := KubeAPI o;
     KubeClientSet := KubeClientSet o; ClusterName := v;
     ClusterHost := ClusterHost o; ClusterCA := ClusterCA o;
     ServiceAccountToken := ServiceAccountToken o; GitLabAPI := GitLabAPI o |}.

Definition set_KubeClientSet (cs : kubernetes.Clientset) (o : GitLabBootstrapOptions) :=
  {| ConfigFlags_KubeConfig := ConfigFlags_KubeConfig o; GitLabAPIToken := GitLabAPIToken o;
     GitLabProjectID := GitLabProjectID o; GitLabURL := GitLabURL o;
     GitLabGroupCluster := GitLabGroupCluster o; KubeConfig := KubeConfig o;
     RestConfig := RestConfig o; KubeAPI := KubeAPI o;
     KubeClientSet := Some cs; ClusterName := ClusterName o;
     ClusterHost := ClusterHost o; ClusterCA := ClusterCA o;
     ServiceAccountToken := ServiceAccountToken o; GitLabAPI := GitLabAPI o |}.

Definition set_ServiceAccountToken (v : string) (o : GitLabBootstrapOptions) :=
  {| ConfigFlags_KubeConfig := ConfigFlags_KubeConfig o; GitLabAPIToken := GitLabAPIToken o;
     GitLabProjectID := GitLabProjectID o; GitLabURL := GitLabURL o;
     GitLabGroupCluster := GitLabGroupCluster o; KubeConfig := KubeConfig o;
     RestConfig := RestConfig o; KubeAPI := KubeAPI o;
     KubeClientSet := KubeClientSet o; ClusterName := ClusterName o;
     ClusterHost := ClusterHost o; ClusterCA := ClusterCA o;
     ServiceAccountToken := v; GitLabAPI := GitLabAPI o |}.

Definition set_GitLabAPI (c : gitlab.Client) (o : GitLabBootstrapOptions) :=
  {| ConfigFlags_KubeConfig := ConfigFlags_KubeConfig o; GitLabAPIToken := GitLabAPIToken o;
     GitLabProjectID := GitLabProjectID o; GitLabURL := GitLabURL o;
     GitLabGroupCluster := GitLabGroupCluster o; KubeConfig := KubeConfig o;
     RestConfig := RestConfig o; KubeAPI := KubeAPI o;
     KubeClientSet := KubeClientSet o; ClusterName := ClusterName o;
     ClusterHost := ClusterHost o; ClusterCA := ClusterCA o;
     ServiceAccountToken := ServiceAccountToken o; GitLabAPI := Some c |}.

(** ** Calls that leave the program *)

Inductive Event : Type :=
| EvGetenv (key : string)
| EvUserHomeDir
| EvBuildConfigFromFlags (masterUrl path : string)
| EvLoadFromFile (path : string)
| EvNewForConfig (c : restclient.Config)
| EvRegexpMatchString (pattern s : string)
| EvServiceAccountsGet (ns name : string)
| EvServiceAccountsCreate (ns : string) (sa : v1.ServiceAccount)
| EvClusterRoleBindingsGet (name : string)
| EvClusterRoleBindingsCreate (crb : rbacv1.ClusterRoleBinding)
| EvSecretsGet (ns name : string)
| EvGetGroup (c : gitlab.Client) (gid : string)
| EvGetProject (c : gitlab.Client) (pid : string)
| EvGroupAddCluster (c : gitlab.Client) (gid : string) (opt : gitlab.AddGroupClusterOptions)
| EvProjectAddCluster (c : gitlab.Client) (pid : string) (opt : gitlab.AddClusterOptions)
| EvStdout (s : string).

(** Requests to the Kubernetes API server or to GitLab. *)
Definition is_network_call (e : Event) : bool :=
  match e with
  | EvServiceAccountsGet _ _ | EvServiceAccountsCreate _ _
  | EvClusterRoleBindingsGet _ | EvClusterRoleBindingsCreate _
  | EvSecretsGet _ _
  | EvGetGroup _ _ | EvGetProject _ _
  | EvGroupAddCluster _ _ _ | EvProjectAddCluster _ _ _ => true
  | _ => false
  end.

(** Requests to the Kubernetes API server. *)
Definition is_kubernetes_call (e : Event) : bool :=
  match e with
  | EvServiceAccountsGet _ _ | EvServiceAccountsCreate _ _
  | EvClusterRoleBindingsGet _ | EvClusterRoleBindingsCreate _
  | EvSecretsGet _ _ => true
  | _ => false
  end.

(** Reads of the kubeconfig and the construction of the client set. *)
Definition is_kubeconfig_load (e : Event) : bool :=
  match e with
  | EvBuildConfigFromFlags _ _ | EvLoadFromFile _ | EvNewForConfig _ => true
  | _ => false
  end.

(** Requests to GitLab. *)
Definition is_gitlab_call (e : Event) : bool :=
  match e with
  | EvGetGroup _ _ | EvGetProject _ _
  | EvGroupAddCluster _ _ _ | EvProjectAddCluster _ _ _ => true
  | _ => false
  end.

Definition is_create_call (e : Event) : bool :=
  match e with
  | EvServiceAccountsCreate _ _ | EvClusterRoleBindingsCreate _ => true
  | _ => false
  end.

Definition is_secret_get (e : Event) : bool :=
  match e with
  | EvSecretsGet _ _ => true
  | _ => false
  end.

(** GitLab requests on a group, and on a project. *)
Definition is_group_call (e : Event) : bool :=
  match e with
  | EvGetGroup _ _ | EvGroupAddCluster _ _ _ => true
  | _ => false
  end.

Definition is_project_call (e : Event) : bool :=
  match e with
  | EvGetProject _ _ | EvProjectAddCluster _ _ _ => true
  | _ => false
  end.

(** The world behind the client libraries.  Reads (Getenv, file loads, GET
    requests) are queries on the world; the two Kubernetes CREATE requests
    and the two GitLab add-cluster requests also change it. *)
Class Env (W : Type) : Type := {
  os_Getenv : W -> string -> string;
  os_UserHomeDir : W -> string + error;
  filepath_Join : list string -> string;
  clientcmd_BuildConfigFromFlags : W -> string -> string -> restclient.Config + error;
  clientcmd_LoadFromFile : W -> string -> clientcmdapi.Config + error;
  kubernetes_NewForConfig : W -> restclient.Config -> kubernetes.Clientset + error;
  ServiceAccounts_Get :
    W -> kubernetes.Clientset -> string -> string -> v1.ServiceAccount + error;
  ServiceAccounts_Create :
    W -> kubernetes.Clientset -> string -> v1.ServiceAccount ->
    (v1.ServiceAccount + error) * W;
  ClusterRoleBindings_Get :
    W -> kubernetes.Clientset -> string -> rbacv1.ClusterRoleBinding + error;
  ClusterRoleBindings_Create :
    W -> kubernetes.Clientset -> rbacv1.ClusterRoleBinding ->
    (rbacv1.ClusterRoleBinding + error) * W;
  Secrets_Get : W -> kubernetes.Clientset -> string -> string -> v1.Secret + error;
  Groups_GetGroup : W -> gitlab.Client -> string -> gitlab.Group + error;
  Projects_GetProject : W -> gitlab.Client -> string -> gitlab.Project + error;
  GroupCluster_AddCluster :
    W -> gitlab.Client -> string -> gitlab.AddGroupClusterOptions ->
    (gitlab.GroupCluster + error) * W;
  ProjectCluster_AddCluster :
    W -> gitlab.Client -> string -> gitlab.AddClusterOptions ->
    (gitlab.ProjectCluster + error) * W
}.

(** ** The program monad *)

(** A Go call returns, or panics (a nil pointer dereference). *)
Inductive result (A : Type) : Type :=
| Ret (a : A)
| Panic (msg : string).
Arguments Ret {A} a.
Arguments Panic {A} msg.

Definition nilDereference : string :=
  "runtime error: invalid memory address or nil pointer dereference".

(** The error of a (value, error) pair. *)
Definition err_of {A : Type} (r : A + error) : goerror :=
  match r with
  | inl _ => None
  | inr e => Some e
  end.

Section Program.
Context {W : Type} {E : Env W}.

Record State : Type := {
  opts : GitLabBootstrapOptions;
  world : W;
  trace : list Event
}.

Definition M (A : Type) : Type := State -> result A * State.

Definition ret {A : Type} (a : A) : M A := fun s => (Ret a, s).

Definition bind {A B : Type} (m : M A) (k : A -> M B) : M B :=
  fun s =>
    match m s with
    | (Ret a, s') => k a s'
    | (Panic msg, s') => (Panic msg, s')
    end.

Definition panic {A : Type} (msg : string) : M A := fun s => (Panic msg, s).

Definition get_opts : M GitLabBootstrapOptions := fun s => (Ret (opts s), s).

Definition modify_opts (f : GitLabBootstrapOptions -> GitLabBootstrapOptions) : M unit :=
  fun s => (Ret tt, {| opts := f (opts s); world := world s; trace := trace s |}).

Definition emit (e : Event) : M unit :=
  fun s => (Ret tt, {| opts := opts s; world := world s; trace := trace s ++ [e] |}).

(** A call that reads the world. *)
Definition query {A : Type} (e : Event) (f : W -> A) : M A :=
  fun s => (Ret (f (world s)),
            {| opts := opts s; world := world s; trace := trace s ++ [e] |}).

(** A call that may change the world. *)
Definition request {A : Type} (e : Event) (f : W -> A * W) : M A :=
  fun s => (Ret (fst (f (world s))),
            {| opts := opts s; world := snd (f (world s)); trace := trace s ++ [e] |}).
End Program.

Arguments State W : clear implicits.
Arguments M W A : clear implicits.

Declare Scope prog_scope.
Delimit Scope prog_scope with prog.
Notation "x <- m ;; k" := (bind m (fun x => k))
  (at level 61, m at next level, right associativity) : prog_scope.
Notation "m ;; k" := (bind m (fun _ => k))
  (at level 61, right associativity) : prog_scope.
Open Scope prog_scope.

Section Bootstrap.
Context {W : Type} {E : Env W}.

Definition Println (line : string) : M W unit := emit (EvStdout (line ++ nl)).
Definition Printf (text : string) : M W unit := emit (EvStdout text).

(** [o.KubeClientSet.CoreV1()] and [o.KubeClientSet.RbacV1()] read a field
    of the client set: a nil client set panics. *)
Definition clientset : M W kubernetes.Clientset :=
  o <- get_opts ;;
  match KubeClientSet o with
  | Some cs => ret cs
  | None => panic nilDereference
  end.

(** [o.GitLabAPI.Groups], [.Projects], [.GroupCluster], [.ProjectCluster] *)
Definition gitlabAPI : M W gitlab.Client :=
  o <- get_opts ;;
  match GitLabAPI o with
  | Some c => ret c
  | None => panic nilDereference
  end.

(** [if err := m; err != nil { return err }] followed by [k]. *)
Definition andThen (m k : M W goerror) : M W goerror :=
  err <- m ;;
  match err with
  | Some _ => ret err
  | None => k
  end.

(** *** Complete *)

(** Lines 113 to 141: load the kubeconfig at [o.KubeConfig]. *)
Definition Complete_load : M W goerror :=
  o <- get_opts ;;
  config <- query (EvBuildConfigFromFlags "" (KubeConfig o))
                  (fun w => clientcmd_BuildConfigFromFlags w "" (KubeConfig o)) ;;
  match config with
  | inr err => ret (errors_Wrap (Some err) "error building config from kubeconfig path")
  | inl config =>
      modify_opts (set_RestConfig config) ;;
      api <- query (EvLoadFromFile (KubeConfig o))
                   (fun w => clientcmd_LoadFromFile w (KubeConfig o)) ;;
      match api with
      | inr err =>
          ret (errors_Wrap (Some err) "error creating clientcmdapi from kubeconfig path")
      | inl api =>
          modify_opts (set_KubeAPI api) ;;
          if (length (clientcmdapi.Contexts api) <? 1)%nat
          then ret (fmt_Errorf "no contexts found in kubeconfig")
          else if clientcmdapi.CurrentContext api =? ""
          then ret (fmt_Errorf "no context currently set")
          else
            match clientcmdapi.lookup (clientcmdapi.CurrentContext api)
                                      (clientcmdapi.Contexts api) with
            | None => panic nilDereference
            | Some ctx =>
                modify_opts (set_ClusterName (clientcmdapi.Cluster ctx)) ;;
                clientset <- query (EvNewForConfig config)
                                   (fun w => kubernetes_NewForConfig w config) ;;
                match clientset with
                | inr err => ret (errors_Wrap (Some err) "error creating clientset from config")
                | inl clientset =>
                    modify_opts (set_KubeClientSet clientset) ;;
                    ret None
                end
            end
      end
  end.

(** Lines 102 to 112: the kubeconfig path, from the flag or the home
    directory; then the load. *)
Definition Complete_kubeconfig : M W goerror :=
  o <- get_opts ;;
  if negb (ConfigFlags_KubeConfig o =? "")
  then modify_opts (set_KubeConfig (ConfigFlags_KubeConfig o)) ;;
       Complete_load
  else
    home <- query EvUserHomeDir os_UserHomeDir ;;
    match home with
    | inr err => ret (errors_Wrap (Some err) "can't get home dir")
    | inl home =>
        modify_opts (set_KubeConfig (filepath_Join [home; ".kube"; "config"])) ;;
        Complete_load
    end.

Definition Complete (args : list string) : M W goerror :=
  if negb (length args =? 1)%nat
  then ret (fmt_Errorf "GitLab project id is required")
  else
    modify_opts (set_GitLabProjectID (nth 0 args "")) ;;
    o <- get_opts ;;
    (if GitLabAPIToken o =? ""
     then v <- query (EvGetenv "GITLAB_API_TOKEN") (fun w => os_Getenv w "GITLAB_API_TOKEN") ;;
          modify_opts (set_GitLabAPIToken v)
     else ret tt) ;;
    Complete_kubeconfig.

(** *** Validate *)

Definition Validate : M W goerror :=
  o <- get_opts ;;
  if GitLabAPIToken o =? "" then ret (fmt_Errorf "GitLab API token is required")
  else if GitLabProjectID o =? "" then ret (fmt_Errorf "GitLab project id is required")
  else
    modify_opts (set_GitLabAPI (gitlab.NewClient (GitLabAPIToken o))) ;;
    (if negb (GitLabURL o =? "")
     then api <- gitlabAPI ;;
          modify_opts (set_GitLabAPI (gitlab.SetBaseURL (GitLabURL o) api))
     else ret tt) ;;
    if GitLabGroupCluster o
    then
      api <- gitlabAPI ;;
      r <- query (EvGetGroup api (GitLabProjectID o))
                 (fun w => Groups_GetGroup w api (GitLabProjectID o)) ;;
      match r with
      | inr err => ret (errors_Wrap (Some err) "unable to get GitLab group")
      | inl _ => ret None
      end
    else
      api <- gitlabAPI ;;
      r <- query (EvGetProject api (GitLabProjectID o))
                 (fun w => Projects_GetProject w api (GitLabProjectID o)) ;;
      match r with
      | inr err => ret (errors_Wrap (Some err) "unable to get GitLab project")
      | inl _ => ret None
      end.

(** *** CreateServiceAccount *)

(** [&v1.ServiceAccount{ObjectMeta: metav1.ObjectMeta{Name: "gitlab-admin"}}] *)
Definition saSpec : v1.ServiceAccount :=
  {| v1.sa_ObjectMeta := metav1.named "gitlab-admin";
     v1.Secrets := [];
     v1.ImagePullSecrets := [];
     v1.AutomountServiceAccountToken := None |}.

Definition CreateServiceAccount : M W goerror :=
  sai <- clientset ;;
  r <- query (EvServiceAccountsGet "kube-system" "gitlab-admin")
             (fun w => ServiceAccounts_Get w sai "kube-system" "gitlab-admin") ;;
  match r with
  | inr _ =>
      r' <- request (EvServiceAccountsCreate "kube-system" saSpec)
                    (fun w => ServiceAccounts_Create w sai "kube-system" saSpec) ;;
      match r' with
      | inr err => ret (errors_Wrap (Some err) "unable to create service account")
      | inl _ => ret None
      end
  | inl _ =>
      Println "Using existing gitlab-admin account" ;;
      ret None
  end.

(** *** CreateClusterRoleBinding *)

Definition crbSpec : rbacv1.ClusterRoleBinding :=
  let crbSubject :=
    {| rbacv1.subj_Kind := rbacv1.ServiceAccountKind;
       rbacv1.subj_APIGroup := "";
       rbacv1.subj_Name := "gitlab-admin";
       rbacv1.subj_Namespace := "kube-system" |} in
  let roleRef :=
    {| rbacv1.role_APIGroup := "";
       rbacv1.role_Name := "cluster-admin";
       rbacv1.role_Kind := "ClusterRole" |} in
  {| rbacv1.crb_ObjectMeta := metav1.named "gitlab-admin";
     rbacv1.Subjects := [crbSubject];
     rbacv1.crb_RoleRef := roleRef |}.

Definition CreateClusterRoleBinding : M W goerror :=
  cs <- clientset ;;
  r <- query (EvClusterRoleBindingsGet "gitlab-admin")
             (fun w => ClusterRoleBindings_Get w cs "gitlab-admin") ;;
  match r with
  | inr _ =>
      r' <- request (EvClusterRoleBindingsCreate crbSpec)
                    (fun w => ClusterRoleBindings_Create w cs crbSpec) ;;
      match r' with
      | inr err => ret (errors_Wrap (Some err) "unable to create clusterrolebinding")
      | inl _ => ret None
      end
  | inl _ =>
      Println "Using existing clusterrolebinding" ;;
      ret None
  end.

(** *** SaveServiceAccountToken *)

(** The loop of lines 241 to 250 over [sa.Secrets].  [inl name] is the
    value of [tokenName] when the loop ends (by [break] or by running out
    of entries), [inr err] the value the function returns from inside the
    loop. *)
Fixpoint scan_secrets (secrets : list v1.ObjectReference) (tokenName : string)
  : M W (string + goerror) :=
  match secrets with
  | [] => ret (inl tokenName)
  | secret :: rest =>
      emit (EvRegexpMatchString token_pattern (v1.ref_Name secret)) ;;
      let (matched, err) := regexp_MatchString_token (v1.ref_Name secret) in
      match err with
      | Some _ => ret (inr (errors_Wrap err "error matching regexp"))
      | None =>
          if matched
          then ret (inl (v1.ref_Name secret))
          else scan_secrets rest tokenName
      end
  end.

Definition SaveServiceAccountToken : M W goerror :=
  cs <- clientset ;;
  sa <- query (EvServiceAccountsGet "kube-system" "gitlab-admin")
              (fun w => ServiceAccounts_Get w cs "kube-system" "gitlab-admin") ;;
  match sa with
  | inr err => ret (errors_Wrap (Some err) "unable to get serviceaccount")
  | inl sa =>
      scanned <- scan_secrets (v1.Secrets sa) "" ;;
      match scanned with
      | inr returned => ret returned
      | inl tokenName =>
          got <- query (EvSecretsGet "kube-system" tokenName)
                       (fun w => Secrets_Get w cs "kube-system" tokenName) ;;
          (* secret, err := si.Get(tokenName, ...) *)
          let err := err_of got in
          match got with
          | inr _ => ret (errors_Wrap err "unable to get serviceaccount token")
          | inl secret =>
              let token := v1.data_string secret "token" in
              if token =? ""
              then ret (errors_Wrap err "no data in serviceaccount token")
              else modify_opts (set_ServiceAccountToken token) ;;
                   ret None
          end
      end
  end.

(** *** AddClusterToGitLab *)

Definition groupClusterOpts (o : GitLabBootstrapOptions) : gitlab.AddGroupClusterOptions :=
  {| gitlab.g_Name := Some (ClusterName o);
     gitlab.g_Domain := None;
     gitlab.g_Enabled := None;
     gitlab.g_Managed := None;
     gitlab.g_EnvironmentScope := Some "*";
     gitlab.g_PlatformKubernetes :=
       Some {| gitlab.g_APIURL := Some (ClusterHost o);
               gitlab.g_Token := Some (ServiceAccountToken o);
               gitlab.g_CaCert := Some (ClusterCA o);
               gitlab.g_Namespace := None;
               gitlab.g_AuthorizationType := None |} |}.

Definition projectClusterOpts (o : GitLabBootstrapOptions) : gitlab.AddClusterOptions :=
  {| gitlab.Name := Some (ClusterName o);
     gitlab.Domain := None;
     gitlab.Enabled := None;
     gitlab.Managed := None;
     gitlab.EnvironmentScope := Some "*";
     gitlab.PlatformKubernetes :=
       Some {| gitlab.APIURL := Some (ClusterHost o);
               gitlab.Token := Some (ServiceAccountToken o);
               gitlab.CaCert := Some (ClusterCA o);
               gitlab.Namespace := None;
               gitlab.AuthorizationType := None |} |}.

(** [fmt.Sprintf("%s/clusters/%d", webURL, id)] *)
Definition clusterURL (webURL : string) (id : Z) : string :=
  webURL ++ "/clusters/" ++ fmt_d id.

Definition finishUp (gitlabClusterURL : string) : string :=
  "To finish up visit: " ++ gitlabClusterURL ++ " and install Helm and Runner." ++ nl.

Definition addClusterToGroup : M W goerror :=
  o <- get_opts ;;
  let clusterOpts := groupClusterOpts o in
  api <- gitlabAPI ;;
  r <- request (EvGroupAddCluster api (GitLabProjectID o) clusterOpts)
               (fun w => GroupCluster_AddCluster w api (GitLabProjectID o) clusterOpts) ;;
  match r with
  | inr err => ret (errors_Wrap (Some err) "unable to assign kubernetes cluster to group")
  | inl gc =>
      match gitlab.gc_Group gc with
      | None => panic nilDereference
      | Some group =>
          let gitlabClusterURL := clusterURL (gitlab.grp_WebURL group) (gitlab.gc_ID gc) in
          Println "Cluster successfully added to group!" ;;
          Printf (finishUp gitlabClusterURL) ;;
          ret None
      end
  end.

Definition addClusterToProject : M W goerror :=
  o <- get_opts ;;
  let clusterOpts := projectClusterOpts o in
  api <- gitlabAPI ;;
  r <- request (EvProjectAddCluster api (GitLabProjectID o) clusterOpts)
               (fun w => ProjectCluster_AddCluster w api (GitLabProjectID o) clusterOpts) ;;
  match r with
  | inr err => ret (errors_Wrap (Some err) "unable to assign kubernetes cluster to project")
  | inl pc =>
      match gitlab.pc_Project pc with
      | None => panic nilDereference
      | Some project =>
          let gitlabClusterURL := clusterURL (gitlab.p_WebURL project) (gitlab.pc_ID pc) in
          Println "Cluster successfully added to project!" ;;
          Printf (finishUp gitlabClusterURL) ;;
          ret None
      end
  end.

Definition AddClusterToGitLab : M W goerror :=
  o <- get_opts ;;
  if GitLabGroupCluster o
  then andThen addClusterToGroup (ret None)
  else andThen addClusterToProject (ret None).

(** *** Run and the command *)

Definition Run : M W goerror :=
  andThen CreateServiceAccount
    (andThen CreateClusterRoleBinding
       (andThen SaveServiceAccountToken
          (andThen AddClusterToGitLab (ret None)))).

(** The [RunE] closure of [NewCmdGitLabBootstrap]. *)
Definition RunE (args : list string) : M W goerror :=
  andThen (Complete args) (andThen Validate (andThen Run (ret None))).

(** The state a command starts in: the options as the flags set them, no
    call issued yet. *)
Definition start (o : GitLabBootstrapOptions) (w : W) : State W :=
  {| opts := o; world := w; trace := [] |}.
End Bootstrap.

(** ** An in-memory world

    One cluster whose objects all live in namespace kube-system, one GitLab
    instance that accepts a single API token, and a file system that holds
    parsed kubeconfig files.  The Kubernetes client refuses a request for a
    resource with an empty name before it reaches the server, as client-go's
    request builder does. *)

Module Fake.
Record World : Type := {
  environ : list (string * string);
  homeDir : string + error;
  kubeconfigs : list (string * (restclient.Config * clientcmdapi.Config));
  serviceAccounts : list v1.ServiceAccount;
  clusterRoleBindings : list rbacv1.ClusterRoleBinding;
  secrets : list v1.Secret;
  acceptedToken : string;
  projects : list (string * gitlab.Project);
  groups : list (string * gitlab.Group);
  nextClusterID : Z
}.

Fixpoint assoc {A : Type} (key : string) (m : list (string * A)) : option A :=
  match m with
  | [] => None
  | (k, v) :: rest => if k =? key then Some v else assoc key rest
  end.

Definition quoted (kind name verb : string) : error :=
  errorString (kind ++ " " ++ name ++ " " ++ verb).

Definition emptyName : error := errorString "resource name may not be empty".
Definition unauthorized : error := errorString "401 Unauthorized".
Definition notFound : error := errorString "404 Not Found".

Definition getenv (w : World) (key : string) : string :=
  match assoc key (environ w) with
  | Some v => v
  | None => ""
  end.

Definition join (elem : list string) : string :=
  String.concat "/" (filter (fun e => negb (e =? "")) elem).

Definition readKubeconfig (w : World) (path : string)
  : (restclient.Config * clientcmdapi.Config) + error :=
  match assoc path (kubeconfigs w) with
  | Some parsed => inl parsed
  | None => inr (quoted "open" path "no such file or directory")
  end.

Definition buildConfig (w : World) (masterUrl path : string) : restclient.Config + error :=
  match readKubeconfig w path with
  | inl parsed => inl (fst parsed)
  | inr e => inr e
  end.

Definition loadFromFile (w : World) (path : string) : clientcmdapi.Config + error :=
  match readKubeconfig w path with
  | inl parsed => inl (snd parsed)
  | inr e => inr e
  end.

Definition findSA (name : string) (l : list v1.ServiceAccount) : option v1.ServiceAccount :=
  find (fun sa => metav1.Name (v1.sa_ObjectMeta sa) =? name) l.

Definition findCRB (name : string) (l : list rbacv1.ClusterRoleBinding) :=
  find (fun crb => metav1.Name (rbacv1.crb_ObjectMeta crb) =? name) l.

Definition findSecret (name : string) (l : list v1.Secret) : option v1.Secret :=
  find (fun s => metav1.Name (v1.secret_ObjectMeta s) =? name) l.

Definition getSA (w : World) (cs : kubernetes.Clientset) (ns name : string)
  : v1.ServiceAccount + error :=
  if name =? "" then inr emptyName
  else if negb (ns =? "kube-system") then inr (quoted "serviceaccounts" name "not found")
  else match findSA name (serviceAccounts w) with
       | Some sa => inl sa
       | None => inr (quoted "serviceaccounts" name "not found")
       end.

Definition with_serviceAccounts (l : list v1.ServiceAccount) (w : World) : World :=
  {| environ := environ w; homeDir := homeDir w; kubeconfigs := kubeconfigs w;
     serviceAccounts := l; clusterRoleBindings := clusterRoleBindings w;
     secrets := secrets w; acceptedToken := acceptedToken w;
     projects := projects w; groups := groups w; nextClusterID := nextClusterID w |}.

Definition with_clusterRoleBindings (l : list rbacv1.ClusterRoleBinding) (w : World) : World :=
  {| environ := environ w; homeDir := homeDir w; kubeconfigs := kubeconfigs w;
     serviceAccounts := serviceAccounts w; clusterRoleBindings := l;
     secrets := secrets w; acceptedToken := acceptedToken w;
     projects := projects w; groups := groups w; nextClusterID := nextClusterID w |}.

Definition with_nextClusterID (n : Z) (w : World) : World :=
  {| environ := environ w; homeDir := homeDir w; kubeconfigs := kubeconfigs w;
     serviceAccounts := serviceAccounts w; clusterRoleBindings := clusterRoleBindings w;
     secrets := secrets w; acceptedToken := acceptedToken w;
     projects := projects w; groups := groups w; nextClusterID := n |}.

Definition createSA (w : World) (cs : kubernetes.Clientset) (ns : string)
    (sa : v1.ServiceAccount) : (v1.ServiceAccount + error) * World :=
  let name := metav1.Name (v1.sa_ObjectMeta sa) in
  if negb (ns =? "kube-system") then (inr (quoted "namespaces" ns "not found"), w)
  else match findSA name (serviceAccounts w) with
       | Some _ => (inr (quoted "serviceaccounts" name "already exists"), w)
       | None => (inl sa, with_serviceAccounts (serviceAccounts w ++ [sa]) w)
       end.

Definition getCRB (w : World) (cs : kubernetes.Clientset) (name : string)
  : rbacv1.ClusterRoleBinding + error :=
  if name =? "" then inr emptyName
  else match findCRB name (clusterRoleBindings w) with
       | Some crb => inl crb
       | None => inr (quoted "clusterrolebindings" name "not found")
       end.

Definition createCRB (w : World) (cs : kubernetes.Clientset)
    (crb : rbacv1.ClusterRoleBinding) : (rbacv1.ClusterRoleBinding + error) * World :=
  let name := metav1.Name (rbacv1.crb_ObjectMeta crb) in
  match findCRB name (clusterRoleBindings w) with
  | Some _ => (inr (quoted "clusterrolebindings" name "already exists"), w)
  | None => (inl crb, with_clusterRoleBindings (clusterRoleBindings w ++ [crb]) w)
  end.

Definition getSecret (w : World) (cs : kubernetes.Clientset) (ns name : string)
  : v1.Secret + error :=
  if name =? "" then inr emptyName
  else if negb (ns =? "kube-system") then inr (quoted "secrets" name "not found")
  else match findSecret name (secrets w) with
       | Some s => inl s
       | None => inr (quoted "secrets" name "not found")
       end.

Definition getGroup (w : World) (c : gitlab.Client) (gid : string) : gitlab.Group + error :=
  if negb (gitlab.token c =? acceptedToken w) then inr unauthorized
  else match assoc gid (groups w) with
       | Some g => inl g
       | None => inr notFound
       end.

Definition getProject (w : World) (c : gitlab.Client) (pid : string)
  : gitlab.Project + error :=
  if negb (gitlab.token c =? acceptedToken w) then inr unauthorized
  else match assoc pid (projects w) with
       | Some p => inl p
       | None => inr notFound
       end.

Definition clusterName (name : option string) : string :=
  match name with
  | Some n => n
  | None => ""
  end.

Definition addGroupCluster (w : World) (c : gitlab.Client) (gid : string)
    (opt : gitlab.AddGroupClusterOptions) : (gitlab.GroupCluster + error) * World :=
  match getGroup w c gid with
  | inr e => (inr e, w)
  | inl g =>
      (inl {| gitlab.gc_ID := nextClusterID w;
              gitlab.gc_Name := clusterName (gitlab.g_Name opt);
              gitlab.gc_Group := Some g |},
       with_nextClusterID (nextClusterID w + 1) w)
  end.

Definition addProjectCluster (w : World) (c : gitlab.Client) (pid : string)
    (opt : gitlab.AddClusterOptions) : (gitlab.ProjectCluster + error) * World :=
  match getProject w c pid with
  | inr e => (inr e, w)
  | inl p =>
      (inl {| gitlab.pc_ID := nextClusterID w;
              gitlab.pc_Name := clusterName (gitlab.Name opt);
              gitlab.pc_Project := Some p |},
       with_nextClusterID (nextClusterID w + 1) w)
  end.

#[export] Instance env : Env World := {|
  os_Getenv := getenv;
  os_UserHomeDir := homeDir;
  filepath_Join := join;
  clientcmd_BuildConfigFromFlags := buildConfig;
  clientcmd_LoadFromFile := loadFromFile;
  kubernetes_NewForConfig := fun _ c => inl {| kubernetes.config := c |};
  ServiceAccounts_Get := getSA;
  ServiceAccounts_Create := createSA;
  ClusterRoleBindings_Get := getCRB;
  ClusterRoleBindings_Create := createCRB;
  Secrets_Get := getSecret;
  Groups_GetGroup := getGroup;
  Projects_GetProject := getProject;
  GroupCluster_AddCluster := addGroupCluster;
  ProjectCluster_AddCluster := addProjectCluster
|}.

(** *** A workstation, a cluster and a GitLab instance to run against *)

Definition restConfig : restclient.Config :=
  {| restclient.Host := "https://10.0.0.1:6443"; restclient.CAData := "-----BEGIN CERTIFICATE-----" |}.

Definition kubeAPI : clientcmdapi.Config :=
  {| clientcmdapi.Contexts :=
       [("dev", {| clientcmdapi.Cluster := "dev-cluster"; clientcmdapi.AuthInfo := "admin" |})];
     clientcmdapi.CurrentContext := "dev" |}.

Definition cs : kubernetes.Clientset := {| kubernetes.config := restConfig |}.

Definition tokenRef (name : string) : v1.ObjectReference :=
  {| v1.ref_Kind := ""; v1.ref_Namespace := ""; v1.ref_Name := name |}.

(** The gitlab-admin account with the given secret references. *)
Definition adminSA (refs : list string) : v1.ServiceAccount :=
  {| v1.sa_ObjectMeta :=
       {| metav1.Name := "gitlab-admin"; metav1.GenerateName := "";
          metav1.Namespace := "kube-system"; metav1.Labels := [];
          metav1.Annotations := [] |};
     v1.Secrets := map tokenRef refs;
     v1.ImagePullSecrets := [];
     v1.AutomountServiceAccountToken := None |}.

(** A service-account-token secret holding [tok] under the key token. *)
Definition tokenSecret (name tok : string) : v1.Secret :=
  {| v1.secret_ObjectMeta :=
       {| metav1.Name := name; metav1.GenerateName := "";
          metav1.Namespace := "kube-system"; metav1.Labels := [];
          metav1.Annotations := [] |};
     v1.Data := [("ca.crt", "-----BEGIN CERTIFICATE-----"); ("token", tok)];
     v1.Type_ := "kubernetes.io/service-account-token" |}.

Definition project : gitlab.Project :=
  {| gitlab.p_ID := 7; gitlab.p_WebURL := "https://gitlab.example/proj" |}.

Definition group : gitlab.Group :=
  {| gitlab.grp_ID := 3; gitlab.grp_WebURL := "https://gitlab.example/groups/team" |}.

(** A world with the given environment, service accounts and secrets. *)
Definition mk (vars : list (string * string)) (sas : list v1.ServiceAccount)
    (secs : list v1.Secret) : World :=
  {| environ := vars;
     homeDir := inl "/home/dev";
     kubeconfigs := [("/home/dev/.kube/config", (restConfig, kubeAPI))];
     serviceAccounts := sas;
     clusterRoleBindings := [];
     secrets := secs;
     acceptedToken := "glpat-secret";
     projects := [("1234", project)];
     groups := [("team", group)];
     nextClusterID := 42 |}.

(** The options after a successful Complete and Validate. *)
Definition ready (useGroup : bool) (id : string) : GitLabBootstrapOptions :=
  {| ConfigFlags_KubeConfig := "";
     GitLabAPIToken := "glpat-secret";
     GitLabProjectID := id;
     GitLabURL := "";
     GitLabGroupCluster := useGroup;
     KubeConfig := "/home/dev/.kube/config";
     RestConfig := Some restConfig;
     KubeAPI := Some kubeAPI;
     KubeClientSet := Some cs;
     ClusterName := "dev-cluster";
     ClusterHost := "https://10.0.0.1:6443";
     ClusterCA := "-----BEGIN CERTIFICATE-----";
     ServiceAccountToken := "";
     GitLabAPI := Some (gitlab.NewClient "glpat-secret") |}.
End Fake.

(** ** A cluster that refuses some CREATE requests

    The in-memory world behind an authorisation check: the caller may or
    may not create service accounts, and may or may not create cluster role
    bindings.  A refused CREATE changes nothing. *)

Module Restricted.
Record World : Type := {
  inner : Fake.World;
  mayCreateAccounts : bool;
  mayCreateBindings : bool
}.

Definition forbidden (resource : string) : error :=
  errorString (resource ++ " is forbidden").

Definition lift {A : Type} (w : World) (r : A * Fake.World) : A * World :=
  (fst r, {| inner := snd r;
             mayCreateAccounts := mayCreateAccounts w;
             mayCreateBindings := mayCreateBindings w |}).

Definition createSA (w : World) (cs : kubernetes.Clientset) (ns : string)
    (sa : v1.ServiceAccount) : (v1.ServiceAccount + error) * World :=
  if mayCreateAccounts w
  then lift w (Fake.createSA (inner w) cs ns sa)
  else (inr (forbidden "serviceaccounts"), w).

Definition createCRB (w : World) (cs : kubernetes.Clientset)
    (crb : rbacv1.ClusterRoleBinding) : (rbacv1.ClusterRoleBinding + error) * World :=
  if mayCreateBindings w
  then lift w (Fake.createCRB (inner w) cs crb)
  else (inr (forbidden "clusterrolebindings"), w).

#[global] Instance env : Env World := {|
  os_Getenv := fun w => Fake.getenv (inner w);
  os_UserHomeDir := fun w => Fake.homeDir (inner w);
  filepath_Join := Fake.join;
  clientcmd_BuildConfigFromFlags := fun w => Fake.buildConfig (inner w);
  clientcmd_LoadFromFile := fun w => Fake.loadFromFile (inner w);
  kubernetes_NewForConfig := fun _ c => inl {| kubernetes.config := c |};
  ServiceAccounts_Get := fun w => Fake.getSA (inner w);
  ServiceAccounts_Create := createSA;
  ClusterRoleBindings_Get := fun w => Fake.getCRB (inner w);
  ClusterRoleBindings_Create := createCRB;
  Secrets_Get := fun w => Fake.getSecret (inner w);
  Groups_GetGroup := fun w => Fake.getGroup (inner w);
  Projects_GetProject := fun w => Fake.getProject (inner w);
  GroupCluster_AddCluster := fun w c gid opt => lift w (Fake.addGroupCluster (inner w) c gid opt);
  ProjectCluster_AddCluster :=
    fun w c pid opt => lift w (Fake.addProjectCluster (inner w) c pid opt)
|}.
End Restricted.

(** * Properties *)

Open Scope list_scope.

(** ** Helpers *)

(** The events a run added to the trace of the state it started in. *)
Definition added {W : Type} (before after : State W) (events : list Event) : Prop :=
  trace after = trace before ++ events.

(** The error of line 255, returned when the Secret GET fails. *)
Definition is_SecretFetchError (e : error) : Prop :=
  exists cause, e = withMessage cause "unable to get serviceaccount token".

(** The failure the spec names TokenNotFound, set apart from its
    SecretFetchError: an error is returned and it is not the error of a
    failed Secret GET. *)
Definition spec_TokenNotFound (r : result goerror) : Prop :=
  exists e, r = Ret (Some e) /\ ~ is_SecretFetchError e.

(** No entry of the list matches the token pattern. *)
Definition none_match (refs : list v1.ObjectReference) : Prop :=
  Forall (fun r => fst (regexp_MatchString_token (v1.ref_Name r)) = false) refs.

(** The regexp calls the loop makes on the given entries. *)
Definition inspections (refs : list v1.ObjectReference) : list Event :=
  map (fun r => EvRegexpMatchString token_pattern (v1.ref_Name r)) refs.

(** An entry of [sa.Secrets] matches the token pattern. *)
Definition matches (r : v1.ObjectReference) : bool :=
  fst (regexp_MatchString_token (v1.ref_Name r)).

(** The entries up to and including the first that matches. *)
Fixpoint upto_first_match (refs : list v1.ObjectReference) : list v1.ObjectReference :=
  match refs with
  | [] => []
  | r :: rest => if matches r then [r] else r :: upto_first_match rest
  end.

(** The name of the first entry that matches, or [fallback]. *)
Definition first_match_name (refs : list v1.ObjectReference) (fallback : string) : string :=
  match find matches refs with
  | Some r => v1.ref_Name r
  | None => fallback
  end.

(** The messages the return sites of the command attach. *)
Definition messages : list string :=
  [ "GitLab project id is required";
    "can't get home dir";
    "error building config from kubeconfig path";
    "error creating clientcmdapi from kubeconfig path";
    "no contexts found in kubeconfig";
    "no context currently set";
    "error creating clientset from config";
    "GitLab API token is required";
    "unable to get GitLab group";
    "unable to get GitLab project";
    "unable to create service account";
    "unable to create clusterrolebinding";
    "unable to get serviceaccount";
    "error matching regexp";
    "unable to get serviceaccount token";
    "unable to assign kubernetes cluster to group";
    "unable to assign kubernetes cluster to project" ]%string.

(** nil, or an error whose outermost message is one of [messages]. *)
Definition known (err : goerror) : Prop :=
  match err with
  | None => True
  | Some e => In (outer_message e) messages
  end.

(** The options are the same but for [ServiceAccountToken]. *)
Definition same_but_token (o o' : GitLabBootstrapOptions) : Prop :=
  set_ServiceAccountToken "" o = set_ServiceAccountToken "" o'.

Section Predicates.
Context {W : Type} {E : Env W}.

(** [m] keeps the property [I] of the state, also when it panics. *)
Definition preserves (I : State W -> Prop) {A : Type} (m : M W A) : Prop :=
  forall s : State W, I s -> I (snd (m s)).

(** What [m] returns, when it returns, satisfies [R]. *)
Definition returns {A : Type} (R : A -> Prop) (m : M W A) : Prop :=
  forall s : State W,
    match fst (m s) with
    | Ret a => R a
    | Panic _ => True
    end.

(** [m] does not panic from a state that satisfies [P]. *)
Definition safe (P : State W -> Prop) {A : Type} (m : M W A) : Prop :=
  forall s : State W, P s -> exists a, fst (m s) = Ret a.

(** Both client handles are set. *)
Definition clients_set (s : State W) : Prop :=
  KubeClientSet (opts s) <> None /\ GitLabAPI (opts s) <> None.

(** The world is [w] and no request has gone to Kubernetes. *)
Definition untouched (w : W) (s : State W) : Prop :=
  world s = w /\ Forall (fun e => is_kubernetes_call e = false) (trace s).

(** A program that only reads the world, keeps [GitLabAPIToken] and does
    not consult GITLAB_API_TOKEN; its result and its events depend on the
    options and the world it starts from, not on the trace so far. *)
Definition reads_beside_token (m : M W goerror) : Prop :=
  forall (o : GitLabBootstrapOptions) (w : W),
  exists (r : result goerror) (o' : GitLabBootstrapOptions) (events : list Event),
    (forall tr : list Event,
        m {| opts := o; world := w; trace := tr |} =
        (r, {| opts := o'; world := w; trace := tr ++ events |})) /\
    GitLabAPIToken o' = GitLabAPIToken o /\
    ~ In (EvGetenv "GITLAB_API_TOKEN") events.

(** With the group flag set an event is no project request; without it,
    no group request. *)
Definition on_target (useGroup : bool) (e : Event) : Prop :=
  (if useGroup then is_project_call e else is_group_call e) = false.

(** [m] leaves the group flag alone and keeps the trace on the target the
    flag selects. *)
Definition keeps_target (useGroup : bool) {A : Type} (m : M W A) : Prop :=
  forall s : State W,
    GitLabGroupCluster (opts s) = useGroup ->
    Forall (on_target useGroup) (trace s) ->
    GitLabGroupCluster (opts (snd (m s))) = useGroup /\
    Forall (on_target useGroup) (trace (snd (m s))).

(** The client Validate builds from the options. *)
Definition validated_client (o : GitLabBootstrapOptions) : gitlab.Client :=
  if negb (GitLabURL o =? "")%string
  then gitlab.SetBaseURL (GitLabURL o) (gitlab.NewClient (GitLabAPIToken o))
  else gitlab.NewClient (GitLabAPIToken o).
End Predicates.

Arguments keeps_target W useGroup {A} m.
Arguments preserves W I {A} m.
Arguments returns W {A} R m.
Arguments safe W P {A} m.
Arguments reads_beside_token W m : clear implicits.

(** ** States to run the pipeline from *)

Module Scenario.
Import Fake.

(** A cluster where gitlab-admin exists with the given secret references
    and the given secrets, reached with validated options. *)
Definition cluster (refs : list string) (secs : list v1.Secret) : State World :=
  start (ready false "1234") (mk [] [adminSA refs] secs).

(** A cluster without the account. *)
Definition bare : State World := start (ready false "1234") (mk [] [] []).

Definition abc123 : string := "gitlab-admin-token-abc123".
Definition xyz789 : string := "gitlab-admin-token-xyz789".

(** The account's token secret exists and its token field is empty. *)
Definition blank : State World := cluster [abc123] [tokenSecret abc123 ""].

(** The account exists and has no secret reference yet. *)
Definition existing : State World := cluster [] [].

(** No reference of the account matches the pattern. *)
Definition unmatched : State World := cluster ["foo"; "default-token-x2x"] [].

(** The references of the spec's example. *)
Definition pair : State World :=
  cluster ["foo"; abc123] [tokenSecret abc123 "eyJhbGciOiJSUzI1NiIs"].

(** Two references match the pattern. *)
Definition twofold : State World :=
  cluster ["foo"; abc123; xyz789]
          [tokenSecret abc123 "eyJhbGciOiJSUzI1NiIs"; tokenSecret xyz789 "eyJ0eXAiOiJKV1Qi"].

(** Ready to register: the account's token has been saved. *)
Definition registering : State World :=
  start (set_ServiceAccountToken "eyJhbGciOiJSUzI1NiIs" (ready false "1234")) (mk [] [] []).

(** About to validate a group id. *)
Definition validating : State World := start (ready true "team") (mk [] [] []).

(** The options of a command given no flag, and a workstation whose
    environment holds the token. *)
Definition noFlags : GitLabBootstrapOptions := NewGitLabBootstrapOptions "" "" "" false.
Definition workstation : World := mk [("GITLAB_API_TOKEN", "glpat-secret")] [] [].

(** The binding the program creates, as the cluster would hold it. *)
Definition adminBinding : rbacv1.ClusterRoleBinding :=
  {| rbacv1.crb_ObjectMeta := metav1.named "gitlab-admin";
     rbacv1.Subjects :=
       [{| rbacv1.subj_Kind := "ServiceAccount"; rbacv1.subj_APIGroup := "";
           rbacv1.subj_Name := "gitlab-admin"; rbacv1.subj_Namespace := "kube-system" |}];
     rbacv1.crb_RoleRef :=
       {| rbacv1.role_APIGroup := "rbac.authorization.k8s.io";
          rbacv1.role_Kind := "ClusterRole"; rbacv1.role_Name := "cluster-admin" |} |}.

(** A cluster bootstrapped by an earlier run: account, binding and token
    secret are there. *)
Definition bootstrapped : State World :=
  start (ready false "1234")
        (with_clusterRoleBindings [adminBinding]
           (mk [] [adminSA ["foo"; abc123]] [tokenSecret abc123 "eyJhbGciOiJSUzI1NiIs"])).

(** Validated options whose token or id is missing. *)
Definition noToken : State World :=
  start (set_GitLabProjectID "1234" noFlags) (mk [] [] []).

(** Registering with an id GitLab does not know. *)
Definition unknownProject : State World :=
  start (set_ServiceAccountToken "eyJhbGciOiJSUzI1NiIs" (ready false "9999")) (mk [] [] []).

(** Registering with a group. *)
Definition registeringGroup : State World :=
  start (set_ServiceAccountToken "eyJhbGciOiJSUzI1NiIs" (ready true "team")) (mk [] [] []).


(** An empty cluster on which the caller may create neither accounts nor
    bindings, and one on which only bindings are refused. *)
Definition readOnly : State Restricted.World :=
  start (ready false "1234")
        {| Restricted.inner := mk [] [] [];
           Restricted.mayCreateAccounts := false;
           Restricted.mayCreateBindings := false |}.

Definition namespaceAdmin : State Restricted.World :=
  start (ready false "1234")
        {| Restricted.inner := mk [] [] [];
           Restricted.mayCreateAccounts := true;
           Restricted.mayCreateBindings := false |}.
End Scenario.

Ltac unfold_prog :=
  unfold andThen, clientset, gitlabAPI, Println, Printf,
         bind, ret, panic, get_opts, modify_opts, emit, query, request in *.

Section Facts.
Context {W : Type} {E : Env W}.

Lemma app_assoc_cons (l : list Event) (e : Event) (l' : list Event) :
  (l ++ [e]) ++ l' = l ++ e :: l'.
Proof. now rewrite <- app_assoc. Qed.

(** The loop over entries none of which matches leaves [tokenName] as it
    was and inspects each entry once, in order. *)
Lemma scan_secrets_none (refs : list v1.ObjectReference) :
  none_match refs ->
  forall (tokenName : string) (s : State W),
    scan_secrets refs tokenName s =
    (Ret (inl tokenName),
     {| opts := opts s; world := world s; trace := trace s ++ inspections refs |}).
Proof.
  induction 1 as [| r refs Hr _ IH]; intros tokenName s.
  - cbn. unfold ret. rewrite app_nil_r. now destruct s.
  - cbn [scan_secrets]. unfold bind at 1. unfold emit at 1.
    unfold regexp_MatchString_token in *. cbn [fst] in Hr. rewrite Hr.
    rewrite IH. cbn. now rewrite app_assoc_cons.
Qed.

(** The loop stops at the first entry that matches: it inspects the
    entries up to and including that one, and none after it. *)
Lemma scan_secrets_first (front back : list v1.ObjectReference) (hit : v1.ObjectReference) :
  none_match front ->
  fst (regexp_MatchString_token (v1.ref_Name hit)) = true ->
  forall (tokenName : string) (s : State W),
    scan_secrets (front ++ hit :: back) tokenName s =
    (Ret (inl (v1.ref_Name hit)),
     {| opts := opts s; world := world s;
        trace := trace s ++ inspections (front ++ [hit]) |}).
Proof.
  intros Hfront Hhit. induction Hfront as [| r refs Hr _ IH]; intros tokenName s.
  - cbn. unfold bind, emit, ret, regexp_MatchString_token in *.
    cbn [fst] in Hhit. now rewrite Hhit.
  - cbn [scan_secrets app]. unfold bind at 1. unfold emit at 1.
    unfold regexp_MatchString_token in *. cbn [fst] in Hr. rewrite Hr.
    rewrite IH. cbn. now rewrite app_assoc_cons.
Qed.
End Facts.

Section Claims.
Context {W : Type} {E : Env W}.

(** C7. When the positional id is absent, Complete returns the error
    "GitLab project id is required" and leaves the state as it found it:
    no call of any kind, so no request to Kubernetes or GitLab, has been
    issued.  The same holds for the whole command, which stops there. *)
Theorem Complete_missing_argument (s : State W) :
  Complete [] s = (Ret (fmt_Errorf "GitLab project id is required"), s) /\
  RunE [] s = (Ret (fmt_Errorf "GitLab project id is required"), s) /\
  filter is_network_call (trace (snd (Complete [] s))) =
  filter is_network_call (trace s).
Proof. repeat split. Qed.

(** C3. When the GET of the gitlab-admin account in kube-system succeeds,
    CreateServiceAccount returns nil, issues the GET and no CREATE, prints
    the reuse line and leaves the options and the world, hence the
    account, as they were.  Running the step a second time gives the
    result, the options and the world of running it once, again with no
    CREATE. *)
Theorem CreateServiceAccount_existing
    (s : State W) (cs : kubernetes.Clientset) (sa : v1.ServiceAccount) :
  KubeClientSet (opts s) = Some cs ->
  ServiceAccounts_Get (world s) cs "kube-system" "gitlab-admin" = inl sa ->
  let once := CreateServiceAccount s in
  let twice := (CreateServiceAccount ;; CreateServiceAccount) s in
  fst once = Ret None /\
  added s (snd once) [EvServiceAccountsGet "kube-system" "gitlab-admin";
                      EvStdout ("Using existing gitlab-admin account" ++ nl)%string] /\
  filter is_create_call (trace (snd once)) = filter is_create_call (trace s) /\
  opts (snd once) = opts s /\
  world (snd once) = world s /\
  ServiceAccounts_Get (world (snd once)) cs "kube-system" "gitlab-admin" = inl sa /\
  fst twice = fst once /\
  opts (snd twice) = opts (snd once) /\
  world (snd twice) = world (snd once) /\
  filter is_create_call (trace (snd twice)) = filter is_create_call (trace s).
Proof.
  intros Hcs Hget once twice. subst once twice.
  unfold CreateServiceAccount, added. unfold_prog. cbn.
  rewrite Hcs. cbn. rewrite Hget. cbn. rewrite Hcs. cbn. rewrite Hget. cbn.
  repeat split; try assumption.
  - now rewrite <- !app_assoc.
  - rewrite <- !app_assoc, filter_app. cbn. now rewrite app_nil_r.
  - rewrite <- !app_assoc, filter_app. cbn. now rewrite app_nil_r.
Qed.

(** C4. When the GET of the gitlab-admin account fails, whatever the
    error, CreateServiceAccount issues after it exactly one CREATE, in
    kube-system, of a ServiceAccount whose name is gitlab-admin and whose
    other fields are all at their zero value. *)
Theorem CreateServiceAccount_absent
    (s : State W) (cs : kubernetes.Clientset) (e : error) :
  KubeClientSet (opts s) = Some cs ->
  ServiceAccounts_Get (world s) cs "kube-system" "gitlab-admin" = inr e ->
  let created :=
    {| v1.sa_ObjectMeta :=
         {| metav1.Name := "gitlab-admin"; metav1.GenerateName := "";
            metav1.Namespace := ""; metav1.Labels := []; metav1.Annotations := [] |};
       v1.Secrets := [];
       v1.ImagePullSecrets := [];
       v1.AutomountServiceAccountToken := None |} in
  exists events,
    added s (snd (CreateServiceAccount s)) events /\
    events = [EvServiceAccountsGet "kube-system" "gitlab-admin";
              EvServiceAccountsCreate "kube-system" created] /\
    filter is_create_call events = [EvServiceAccountsCreate "kube-system" created].
Proof.
  intros Hcs Hget created. eexists. split; [| split; reflexivity].
  unfold CreateServiceAccount, added. unfold_prog. cbn.
  rewrite Hcs. cbn. rewrite Hget. cbn.
  destruct (fst (ServiceAccounts_Create _ _ _ _)); cbn; now rewrite <- !app_assoc.
Qed.

(** What SaveServiceAccountToken does once the account is fetched and the
    loop has ended with [tokenName = name] after the inspections [seen]:
    one Secret GET for [name]; the GET's error wrapped when it fails;
    otherwise nil, the token being stored only when it is not empty. *)
Lemma SaveServiceAccountToken_after_scan
    (s : State W) (cs : kubernetes.Clientset) (sa : v1.ServiceAccount)
    (name : string) (seen : list Event) :
  KubeClientSet (opts s) = Some cs ->
  ServiceAccounts_Get (world s) cs "kube-system" "gitlab-admin" = inl sa ->
  (forall s' : State W,
      scan_secrets (v1.Secrets sa) "" s' =
      (Ret (inl name),
       {| opts := opts s'; world := world s'; trace := trace s' ++ seen |})) ->
  SaveServiceAccountToken s =
  (Ret (errors_Wrap (err_of (Secrets_Get (world s) cs "kube-system" name))
                    "unable to get serviceaccount token"),
   {| opts := match Secrets_Get (world s) cs "kube-system" name with
              | inl secret =>
                  if (v1.data_string secret "token" =? "")%string then opts s
                  else set_ServiceAccountToken (v1.data_string secret "token") (opts s)
              | inr _ => opts s
              end;
      world := world s;
      trace := trace s ++ [EvServiceAccountsGet "kube-system" "gitlab-admin"]
                       ++ seen ++ [EvSecretsGet "kube-system" name] |}).
Proof.
  intros Hcs Hget Hscan.
  unfold SaveServiceAccountToken. unfold_prog. cbn.
  rewrite Hcs. cbn. rewrite Hget. cbn. rewrite Hscan. cbn.
  destruct (Secrets_Get (world s) cs "kube-system" name) as [secret | e]; cbn.
  - destruct (v1.data_string secret "token" =? "")%string; cbn;
      now rewrite <- !app_assoc.
  - now rewrite <- !app_assoc.
Qed.

(** Whenever the Secret is fetched and its token field is empty, the
    function returns nil and leaves the options, [ServiceAccountToken]
    included, as they were: line 259 wraps the nil error of the GET. *)
Lemma SaveServiceAccountToken_blank_token
    (s : State W) (cs : kubernetes.Clientset) (sa : v1.ServiceAccount)
    (name : string) (seen : list Event) (secret : v1.Secret) :
  KubeClientSet (opts s) = Some cs ->
  ServiceAccounts_Get (world s) cs "kube-system" "gitlab-admin" = inl sa ->
  (forall s' : State W,
      scan_secrets (v1.Secrets sa) "" s' =
      (Ret (inl name),
       {| opts := opts s'; world := world s'; trace := trace s' ++ seen |})) ->
  Secrets_Get (world s) cs "kube-system" name = inl secret ->
  v1.data_string secret "token" = ""%string ->
  fst (SaveServiceAccountToken s) = Ret None /\
  opts (snd (SaveServiceAccountToken s)) = opts s.
Proof.
  intros Hcs Hget Hscan Hsecret Hblank.
  rewrite (SaveServiceAccountToken_after_scan s cs sa name seen Hcs Hget Hscan).
  cbn [fst snd opts]. rewrite Hsecret, Hblank. now split.
Qed.

Lemma inspections_no_secret_get (refs : list v1.ObjectReference) :
  filter is_secret_get (inspections refs) = [].
Proof. induction refs as [| r refs IH]; [reflexivity | exact IH]. Qed.

(** C9. When some entry of the account's secret references matches the
    pattern, and whatever follows it in the list (further matches
    included), SaveServiceAccountToken inspects the entries up to that
    first match, in order, leaves [tokenName] at its name, and the one
    Secret GET it issues is for that name: no later entry is inspected or
    fetched. *)
Theorem SaveServiceAccountToken_first_match
    (s : State W) (cs : kubernetes.Clientset) (sa : v1.ServiceAccount)
    (front back : list v1.ObjectReference) (hit : v1.ObjectReference) :
  KubeClientSet (opts s) = Some cs ->
  ServiceAccounts_Get (world s) cs "kube-system" "gitlab-admin" = inl sa ->
  v1.Secrets sa = front ++ hit :: back ->
  none_match front ->
  fst (regexp_MatchString_token (v1.ref_Name hit)) = true ->
  fst (scan_secrets (v1.Secrets sa) "" s) = Ret (inl (v1.ref_Name hit)) /\
  exists events,
    added s (snd (SaveServiceAccountToken s)) events /\
    events = [EvServiceAccountsGet "kube-system" "gitlab-admin"]
               ++ inspections (front ++ [hit])
               ++ [EvSecretsGet "kube-system" (v1.ref_Name hit)] /\
    filter is_secret_get events = [EvSecretsGet "kube-system" (v1.ref_Name hit)].
Proof.
  intros Hcs Hget Hrefs Hfront Hhit.
  assert (Hscan : forall s' : State W,
             scan_secrets (v1.Secrets sa) "" s' =
             (Ret (inl (v1.ref_Name hit)),
              {| opts := opts s'; world := world s';
                 trace := trace s' ++ inspections (front ++ [hit]) |})).
  { intros s'. rewrite Hrefs. now apply scan_secrets_first. }
  split; [now rewrite Hscan |].
  eexists. split; [| split; [reflexivity |]].
  - unfold added.
    now rewrite (SaveServiceAccountToken_after_scan s cs sa _ _ Hcs Hget Hscan).
  - cbn [app filter is_secret_get]. rewrite filter_app, inspections_no_secret_get.
    reflexivity.
Qed.

(** C10. When no entry of the account's secret references matches the
    pattern, SaveServiceAccountToken still issues a Secret GET, with the
    empty string as the name, and when that GET fails the error returned
    is that GET's error wrapped with "unable to get serviceaccount token",
    the error of any failed Secret GET. *)
Theorem SaveServiceAccountToken_no_match
    (s : State W) (cs : kubernetes.Clientset) (sa : v1.ServiceAccount) :
  KubeClientSet (opts s) = Some cs ->
  ServiceAccounts_Get (world s) cs "kube-system" "gitlab-admin" = inl sa ->
  none_match (v1.Secrets sa) ->
  added s (snd (SaveServiceAccountToken s))
        ([EvServiceAccountsGet "kube-system" "gitlab-admin"]
           ++ inspections (v1.Secrets sa)
           ++ [EvSecretsGet "kube-system" ""]) /\
  forall cause : error,
    Secrets_Get (world s) cs "kube-system" "" = inr cause ->
    fst (SaveServiceAccountToken s) =
    Ret (Some (withMessage cause "unable to get serviceaccount token")) /\
    is_SecretFetchError (withMessage cause "unable to get serviceaccount token").
Proof.
  intros Hcs Hget Hnone.
  pose proof (SaveServiceAccountToken_after_scan s cs sa "" _ Hcs Hget
                (scan_secrets_none (v1.Secrets sa) Hnone "")) as Hrun.
  rewrite Hrun. split; [reflexivity |].
  intros cause Hfail. cbn [fst]. rewrite Hfail. split; [reflexivity |].
  now exists cause.
Qed.

(** C2, as the code has it.  When no entry matches the pattern, token
    extraction goes on to a Secret GET for the empty name and, when that
    GET fails, fails with the error of a failed Secret GET (there is no
    error of its own for a missing reference).  For the references
    foo, gitlab-admin-token-abc123 it selects gitlab-admin-token-abc123:
    that is the one Secret it fetches. *)
Theorem token_extraction_selection
    (s : State W) (cs : kubernetes.Clientset) (sa : v1.ServiceAccount) :
  KubeClientSet (opts s) = Some cs ->
  ServiceAccounts_Get (world s) cs "kube-system" "gitlab-admin" = inl sa ->
  (none_match (v1.Secrets sa) ->
   In (EvSecretsGet "kube-system" "") (trace (snd (SaveServiceAccountToken s))) /\
   forall cause : error,
     Secrets_Get (world s) cs "kube-system" "" = inr cause ->
     exists e, fst (SaveServiceAccountToken s) = Ret (Some e) /\
               is_SecretFetchError e /\
               Error e = ("unable to get serviceaccount token: " ++ Error cause)%string) /\
  (map v1.ref_Name (v1.Secrets sa) = ["foo"; "gitlab-admin-token-abc123"]%string ->
   fst (scan_secrets (v1.Secrets sa) "" s) = Ret (inl "gitlab-admin-token-abc123"%string) /\
   exists events,
     added s (snd (SaveServiceAccountToken s)) events /\
     filter is_secret_get events =
     [EvSecretsGet "kube-system" "gitlab-admin-token-abc123"]).
Proof.
  intros Hcs Hget. split.
  - intros Hnone.
    pose proof (SaveServiceAccountToken_after_scan s cs sa "" _ Hcs Hget
                  (scan_secrets_none (v1.Secrets sa) Hnone "")) as Hrun.
    rewrite Hrun. cbn [fst snd trace]. split.
    + rewrite !in_app_iff. right. right. right. now left.
    + intros cause Hfail. rewrite Hfail. eexists. split; [reflexivity |].
      split; [now exists cause | reflexivity].
  - intros Hnames.
    destruct (v1.Secrets sa) as [| foo [| tok [| ? ?]]] eqn:Hrefs; try discriminate.
    injection Hnames as Hfoo Htok.
    assert (Hscan : forall s' : State W,
               scan_secrets (v1.Secrets sa) "" s' =
               (Ret (inl (v1.ref_Name tok)),
                {| opts := opts s'; world := world s';
                   trace := trace s' ++ inspections ([foo] ++ [tok]) |})).
    { intros s'. rewrite Hrefs. apply (scan_secrets_first [foo] [] tok).
      - constructor; [| constructor]. now rewrite Hfoo.
      - now rewrite Htok. }
    rewrite <- Hrefs, <- Htok. split; [now rewrite Hscan |].
    eexists. split.
    + unfold added.
      now rewrite (SaveServiceAccountToken_after_scan s cs sa _ _ Hcs Hget Hscan).
    + reflexivity.
Qed.

(** C6. When the project cluster-add call succeeds and its response
    carries the project, addClusterToProject returns nil after printing
    the confirmation and then the line whose URL is the project's WebURL
    followed by /clusters/ and the cluster id in decimal.  For the WebURL
    https://gitlab.example/proj and the id 42 that URL is
    https://gitlab.example/proj/clusters/42, which ends in /clusters/42. *)
Theorem addClusterToProject_prints_url
    (s : State W) (api : gitlab.Client)
    (pc : gitlab.ProjectCluster) (project : gitlab.Project) :
  GitLabAPI (opts s) = Some api ->
  fst (ProjectCluster_AddCluster (world s) api (GitLabProjectID (opts s))
         (projectClusterOpts (opts s))) = inl pc ->
  gitlab.pc_Project pc = Some project ->
  let url := (gitlab.p_WebURL project ++ "/clusters/" ++ fmt_d (gitlab.pc_ID pc))%string in
  fst (addClusterToProject s) = Ret None /\
  added s (snd (addClusterToProject s))
        [EvProjectAddCluster api (GitLabProjectID (opts s)) (projectClusterOpts (opts s));
         EvStdout ("Cluster successfully added to project!" ++ nl)%string;
         EvStdout ("To finish up visit: " ++ url ++ " and install Helm and Runner." ++ nl)%string] /\
  (gitlab.p_WebURL project = "https://gitlab.example/proj"%string ->
   gitlab.pc_ID pc = 42%Z ->
   url = "https://gitlab.example/proj/clusters/42"%string /\
   ends_in "/clusters/42" url).
Proof.
  intros Hapi Hadd Hproject url. subst url.
  unfold addClusterToProject, added, clusterURL, finishUp. unfold_prog. cbn.
  rewrite Hapi. cbn. rewrite Hadd. cbn. rewrite Hproject. cbn.
  split; [reflexivity | split].
  - now rewrite <- !app_assoc.
  - intros Hurl Hid. rewrite Hurl, Hid. split; [reflexivity |].
    now exists "https://gitlab.example/proj"%string.
Qed.

(** *** Complete and the source of the token *)

Ltac finish_reads :=
  do 3 eexists;
  split; [ intros tr; cbn; rewrite <- ?app_assoc; cbn; reflexivity
         | split; [ reflexivity | cbn; intuition discriminate ] ].

Lemma Complete_load_reads : reads_beside_token W Complete_load.
Proof.
  intros o w. unfold Complete_load. unfold_prog. cbn.
  destruct (clientcmd_BuildConfigFromFlags _ _ _) as [config | e]; cbn;
    [| finish_reads].
  destruct (clientcmd_LoadFromFile _ _) as [api | e]; cbn; [| finish_reads].
  destruct (_ <=? 0)%nat; cbn; [finish_reads |].
  destruct (_ =? "")%string; cbn; [finish_reads |].
  destruct (clientcmdapi.lookup _ _) as [ctx |]; cbn; [| finish_reads].
  destruct (kubernetes_NewForConfig _ _) as [clientset | e]; cbn; finish_reads.
Qed.

Lemma Complete_kubeconfig_reads : reads_beside_token W Complete_kubeconfig.
Proof.
  intros o w. unfold Complete_kubeconfig.
  destruct (negb (ConfigFlags_KubeConfig o =? "")%string) eqn:Hflag.
  - destruct (Complete_load_reads (set_KubeConfig (ConfigFlags_KubeConfig o) o) w)
      as (r & o' & events & Hrun & Htok & Hno).
    exists r, o', events. split; [| split; assumption].
    intros tr. unfold bind, get_opts, modify_opts. cbn [opts world trace].
    rewrite Hflag. apply Hrun.
  - destruct (os_UserHomeDir w) as [home | e] eqn:Hhome.
    + destruct (Complete_load_reads
                  (set_KubeConfig (filepath_Join [home; ".kube"; "config"]%string) o) w)
        as (r & o' & events & Hrun & Htok & Hno).
      exists r, o', (EvUserHomeDir :: events). split; [| split].
      * intros tr. unfold bind, get_opts, modify_opts, query. cbn [opts world trace].
        rewrite Hflag. cbn -[Complete_load]. rewrite Hhome. cbn -[Complete_load].
        rewrite Hrun. now rewrite app_assoc_cons.
      * assumption.
      * cbn. intros [Heq | Hin]; [discriminate | contradiction].
    + exists (Ret (errors_Wrap (Some e) "can't get home dir")), o, [EvUserHomeDir].
      split; [| split].
      * intros tr. unfold bind, get_opts, query, ret. cbn [opts world trace].
        rewrite Hflag. cbn. now rewrite Hhome.
      * reflexivity.
      * cbn. intros [Heq | Hin]; [discriminate | contradiction].
Qed.

(** C8.  Let GITLAB_API_TOKEN be set to [t], and run Complete once with
    the flag unset and once with the flag set to [t].  Both runs end with
    [GitLabAPIToken = t], with the same result, the same options and the
    same world.  The run without the flag consults the variable; a run
    whose flag is not empty does not, and resolves the token to the flag
    whatever the variable holds. *)
Theorem Complete_token_sources
    (o : GitLabBootstrapOptions) (w : W) (id t : string) :
  os_Getenv w "GITLAB_API_TOKEN" = t ->
  let from_env := Complete [id] (start (set_GitLabAPIToken "" o) w) in
  let from_flag := Complete [id] (start (set_GitLabAPIToken t o) w) in
  GitLabAPIToken (opts (snd from_env)) = t /\
  GitLabAPIToken (opts (snd from_flag)) = t /\
  fst from_env = fst from_flag /\
  opts (snd from_env) = opts (snd from_flag) /\
  world (snd from_env) = world (snd from_flag) /\
  In (EvGetenv "GITLAB_API_TOKEN") (trace (snd from_env)) /\
  (t <> ""%string ->
   ~ In (EvGetenv "GITLAB_API_TOKEN") (trace (snd from_flag)) /\
   trace (snd from_env) = EvGetenv "GITLAB_API_TOKEN" :: trace (snd from_flag) /\
   forall w' : W,
     GitLabAPIToken (opts (snd (Complete [id] (start (set_GitLabAPIToken t o) w')))) = t).
Proof.
  intros Henv from_env from_flag.
  (* the run without the flag *)
  destruct (Complete_kubeconfig_reads
              (set_GitLabAPIToken t (set_GitLabProjectID id (set_GitLabAPIToken "" o))) w)
    as (r & o' & events & Hrun & Htok & Hno).
  assert (Hfrom_env :
            from_env = (r, {| opts := o'; world := w;
                              trace := EvGetenv "GITLAB_API_TOKEN" :: events |})).
  { subst from_env. unfold Complete, start.
    unfold bind, get_opts, modify_opts, query, ret. cbn [opts world trace length Nat.eqb negb nth].
    cbn [set_GitLabAPIToken set_GitLabProjectID GitLabAPIToken String.eqb].
    cbn [opts world trace app]. rewrite Henv.
    now rewrite (Hrun [EvGetenv "GITLAB_API_TOKEN"]). }
  destruct (String.eqb_spec t "") as [Hempty | Hfull].
  - (* an empty flag is the flag unset *)
    assert (Hsame : from_flag = from_env) by (subst from_flag from_env; now rewrite Hempty).
    rewrite Hsame, Hfrom_env. cbn [fst snd opts world trace].
    cbn [GitLabAPIToken set_GitLabAPIToken] in Htok.
    repeat match goal with |- _ /\ _ => split end;
      try assumption; try reflexivity; try (now left).
    intros Hfull. contradiction.
  - assert (Hflag : forall w1 : W,
               exists r1 o1 events1,
                 Complete [id] (start (set_GitLabAPIToken t o) w1) =
                 (r1, {| opts := o1; world := w1; trace := events1 |}) /\
                 GitLabAPIToken o1 = t /\
                 ~ In (EvGetenv "GITLAB_API_TOKEN") events1 /\
                 (w1 = w -> r1 = r /\ o1 = o' /\ events1 = events)).
    { intros w1.
      destruct (Complete_kubeconfig_reads
                  (set_GitLabProjectID id (set_GitLabAPIToken t o)) w1)
        as (r1 & o1 & events1 & Hrun1 & Htok1 & Hno1).
      exists r1, o1, events1.
      split; [| split; [exact Htok1 | split; [exact Hno1 |]]].
      - unfold Complete, start.
        unfold bind, get_opts, modify_opts, query, ret.
        cbn [opts world trace length Nat.eqb negb nth].
        cbn [set_GitLabAPIToken set_GitLabProjectID GitLabAPIToken].
        apply String.eqb_neq in Hfull. rewrite Hfull. cbn [opts world trace].
        now rewrite (Hrun1 []).
      - intros ->. specialize (Hrun []). specialize (Hrun1 []).
        change (set_GitLabProjectID id (set_GitLabAPIToken t o))
          with (set_GitLabAPIToken t (set_GitLabProjectID id (set_GitLabAPIToken "" o)))
          in Hrun1.
        rewrite Hrun in Hrun1. cbn [app] in Hrun1.
        injection Hrun1 as Hr Ho Hevents. now subst. }
    destruct (Hflag w) as (r1 & o1 & events1 & Hrun1 & Htok1 & Hno1 & Hsame).
    destruct (Hsame eq_refl) as (-> & -> & ->).
    subst from_flag. rewrite Hfrom_env, Hrun1. cbn [fst snd opts world trace].
    cbn [GitLabAPIToken set_GitLabAPIToken] in Htok.
    repeat match goal with |- _ /\ _ => split end;
      try assumption; try reflexivity; try (now left).
    intros _. repeat split; try assumption.
    intros w'. destruct (Hflag w') as (r2 & o2 & events2 & Hrun2 & Htok2 & _).
    now rewrite Hrun2.
Qed.

(** *** One GitLab target per invocation *)

Lemma keeps_ret (b : bool) {A : Type} (a : A) : keeps_target W b (ret a).
Proof. intros s Hflag Htrace. now split. Qed.

Lemma keeps_panic (b : bool) {A : Type} (msg : string) : keeps_target W b (@panic W A msg).
Proof. intros s Hflag Htrace. now split. Qed.

Lemma keeps_bind (b : bool) {A B : Type} (m : M W A) (k : A -> M W B) :
  keeps_target W b m -> (forall a, keeps_target W b (k a)) -> keeps_target W b (bind m k).
Proof.
  intros Hm Hk s Hflag Htrace. unfold bind.
  specialize (Hm s Hflag Htrace).
  destruct (m s) as [[a | msg] s']; cbn [snd] in Hm; destruct Hm as [Hflag' Htrace'].
  - now apply Hk.
  - now split.
Qed.

Lemma keeps_get_opts_bind (b : bool) {B : Type} (k : GitLabBootstrapOptions -> M W B) :
  (forall o, GitLabGroupCluster o = b -> keeps_target W b (k o)) ->
  keeps_target W b (bind get_opts k).
Proof. intros Hk s Hflag Htrace. unfold bind, get_opts. now apply Hk. Qed.

Lemma keeps_modify_opts (b : bool)
    (f : GitLabBootstrapOptions -> GitLabBootstrapOptions) :
  (forall o, GitLabGroupCluster (f o) = GitLabGroupCluster o) ->
  keeps_target W b (modify_opts f).
Proof. intros Hf s Hflag Htrace. cbn. now rewrite Hf. Qed.

Lemma keeps_emit (b : bool) (e : Event) : on_target b e -> keeps_target W b (emit e).
Proof.
  intros He s Hflag Htrace. cbn. split; [assumption |].
  apply Forall_app. split; [assumption | now constructor].
Qed.

Lemma keeps_query (b : bool) {A : Type} (e : Event) (f : W -> A) :
  on_target b e -> keeps_target W b (query e f).
Proof.
  intros He s Hflag Htrace. cbn. split; [assumption |].
  apply Forall_app. split; [assumption | now constructor].
Qed.

Lemma keeps_request (b : bool) {A : Type} (e : Event) (f : W -> A * W) :
  on_target b e -> keeps_target W b (request e f).
Proof.
  intros He s Hflag Htrace. cbn. split; [assumption |].
  apply Forall_app. split; [assumption | now constructor].
Qed.

Ltac target_event :=
  unfold on_target;
  match goal with
  | |- (if ?b then _ else _) = false => destruct b; cbn; congruence
  end.

Ltac keeps_step :=
  match goal with
  | |- keeps_target _ _ (bind get_opts _) => apply keeps_get_opts_bind; intros ? ?
  | |- keeps_target _ _ (bind _ _) => apply keeps_bind; [| intros ?]
  | |- keeps_target _ _ (ret _) => apply keeps_ret
  | |- keeps_target _ _ (panic _) => apply keeps_panic
  | |- keeps_target _ _ (modify_opts _) => apply keeps_modify_opts; reflexivity
  | |- keeps_target _ _ (emit _) => apply keeps_emit; target_event
  | |- keeps_target _ _ (query _ _) => apply keeps_query; target_event
  | |- keeps_target _ _ (request _ _) => apply keeps_request; target_event
  | |- keeps_target _ _ (if ?c then _ else _) => destruct c eqn:?
  | |- keeps_target _ _ (match ?x with _ => _ end) => destruct x eqn:?
  end.

Ltac keeps := unfold Println, Printf, clientset, gitlabAPI, andThen; repeat keeps_step.

Lemma keeps_Complete (b : bool) (args : list string) : keeps_target W b (Complete args).
Proof. unfold Complete, Complete_kubeconfig, Complete_load. keeps. Qed.

Lemma keeps_Validate (b : bool) : keeps_target W b Validate.
Proof. unfold Validate. keeps. Qed.

Lemma keeps_CreateServiceAccount (b : bool) : keeps_target W b CreateServiceAccount.
Proof. unfold CreateServiceAccount. keeps. Qed.

Lemma keeps_CreateClusterRoleBinding (b : bool) : keeps_target W b CreateClusterRoleBinding.
Proof. unfold CreateClusterRoleBinding. keeps. Qed.

Lemma keeps_scan_secrets (b : bool) (refs : list v1.ObjectReference) (tokenName : string) :
  keeps_target W b (scan_secrets refs tokenName).
Proof.
  induction refs as [| r refs IH]; cbn [scan_secrets]; [apply keeps_ret |].
  unfold regexp_MatchString_token. keeps. exact IH.
Qed.

Lemma keeps_SaveServiceAccountToken (b : bool) : keeps_target W b SaveServiceAccountToken.
Proof.
  unfold SaveServiceAccountToken. keeps.
  all: try apply keeps_scan_secrets. all: keeps.
Qed.

Lemma keeps_AddClusterToGitLab (b : bool) : keeps_target W b AddClusterToGitLab.
Proof. unfold AddClusterToGitLab, addClusterToGroup, addClusterToProject. keeps. Qed.

Lemma keeps_andThen (b : bool) (m k : M W goerror) :
  keeps_target W b m -> keeps_target W b k -> keeps_target W b (andThen m k).
Proof.
  intros Hm Hk. unfold andThen. apply keeps_bind; [assumption |].
  intros [e |]; [apply keeps_ret | assumption].
Qed.

Lemma keeps_RunE (b : bool) (args : list string) : keeps_target W b (RunE args).
Proof.
  unfold RunE, Run.
  repeat first [ apply keeps_andThen | apply keeps_ret ].
  - apply keeps_Complete.
  - apply keeps_Validate.
  - apply keeps_CreateServiceAccount.
  - apply keeps_CreateClusterRoleBinding.
  - apply keeps_SaveServiceAccountToken.
  - apply keeps_AddClusterToGitLab.
Qed.

(** C5.  With a token and an id to validate, Validate issues one request:
    the group lookup when the group flag is set, the project lookup when
    it is not, and stores the client.  AddClusterToGitLab, from any state
    that holds a client, issues one request: the group cluster-add when
    the flag is set, the project cluster-add when it is not.  Over a whole
    command, whatever its arguments and the world, no request goes to the
    target the flag does not select. *)
Theorem group_flag_selects_target (s : State W) :
  GitLabAPIToken (opts s) <> ""%string ->
  GitLabProjectID (opts s) <> ""%string ->
  let api := validated_client (opts s) in
  added s (snd (Validate s))
        [if GitLabGroupCluster (opts s)
         then EvGetGroup api (GitLabProjectID (opts s))
         else EvGetProject api (GitLabProjectID (opts s))] /\
  GitLabAPI (opts (snd (Validate s))) = Some api /\
  (forall (s2 : State W) (c : gitlab.Client),
      GitLabAPI (opts s2) = Some c ->
      exists prints,
        added s2 (snd (AddClusterToGitLab s2))
              ((if GitLabGroupCluster (opts s2)
                then EvGroupAddCluster c (GitLabProjectID (opts s2))
                                       (groupClusterOpts (opts s2))
                else EvProjectAddCluster c (GitLabProjectID (opts s2))
                                         (projectClusterOpts (opts s2)))
                 :: prints) /\
        Forall (fun e => is_network_call e = false) prints) /\
  (forall (args : list string) (o : GitLabBootstrapOptions) (w : W),
      let final := snd (RunE args (start o w)) in
      GitLabGroupCluster (opts final) = GitLabGroupCluster o /\
      Forall (on_target (GitLabGroupCluster o)) (trace final)).
Proof.
  intros Htoken Hid api. subst api.
  apply String.eqb_neq in Htoken, Hid.
  split; [| split; [| split]].
  - unfold Validate, added, validated_client. unfold_prog. cbn.
    rewrite Htoken, Hid. cbn.
    destruct (GitLabURL (opts s) =? "")%string; cbn;
      destruct (GitLabGroupCluster (opts s)); cbn;
      match goal with
      | |- context [match ?q with inl _ => _ | inr _ => _ end] => destruct q
      end; reflexivity.
  - unfold Validate, validated_client. unfold_prog. cbn.
    rewrite Htoken, Hid. cbn.
    destruct (GitLabURL (opts s) =? "")%string; cbn;
      destruct (GitLabGroupCluster (opts s)); cbn;
      match goal with
      | |- context [match ?q with inl _ => _ | inr _ => _ end] => destruct q
      end; reflexivity.
  - intros s2 c Hc.
    unfold AddClusterToGitLab, addClusterToGroup, addClusterToProject, added.
    unfold_prog. cbn. destruct (GitLabGroupCluster (opts s2)); cbn; rewrite Hc; cbn.
    + destruct (fst (GroupCluster_AddCluster _ _ _ _)) as [gc | e]; cbn;
        [destruct (gitlab.gc_Group gc); cbn |];
        eexists; (split; [rewrite <- ?app_assoc; reflexivity | repeat constructor]).
    + destruct (fst (ProjectCluster_AddCluster _ _ _ _)) as [pc | e]; cbn;
        [destruct (gitlab.pc_Project pc); cbn |];
        eexists; (split; [rewrite <- ?app_assoc; reflexivity | repeat constructor]).
  - intros args o w final. subst final.
    apply (keeps_RunE (GitLabGroupCluster o) args (start o w)); [reflexivity | constructor].
Qed.
End Claims.

(** * The pipeline on the in-memory world *)

Import Fake Scenario.

(** C1, on the code.  The account's secret is found and fetched, and its
    token field is the empty string.  SaveServiceAccountToken returns nil:
    line 259 wraps [err], which is nil after the GET succeeded, and
    errors.Wrap of nil is nil.  ServiceAccountToken stays empty, Run goes
    on, and the project cluster-add request is issued with an empty
    token. *)
Theorem SaveServiceAccountToken_blank_token_returns_nil :
  Secrets_Get (world blank) cs "kube-system" abc123 = inl (tokenSecret abc123 "") /\
  v1.data_string (tokenSecret abc123 "") "token" = ""%string /\
  fst (SaveServiceAccountToken blank) = Ret None /\
  ServiceAccountToken (opts (snd (SaveServiceAccountToken blank))) = ""%string /\
  fst (Run blank) = Ret None /\
  In (EvProjectAddCluster (gitlab.NewClient "glpat-secret") "1234"
        (projectClusterOpts (set_ServiceAccountToken "" (ready false "1234"))))
     (trace (snd (Run blank))) /\
  option_map gitlab.Token
    (gitlab.PlatformKubernetes
       (projectClusterOpts (set_ServiceAccountToken "" (ready false "1234"))))
  = Some (Some ""%string).
Proof.
  repeat split; try reflexivity.
  vm_compute. do 7 right. left. reflexivity.
Qed.

(** C2, as stated, fails: the references foo and default-token-x2x do not
    match the pattern, a Secret GET for the empty name is issued all the
    same, and the error returned is the one of a failed Secret GET, not a
    TokenNotFound. *)
Lemma token_extraction_without_TokenNotFound :
  none_match (v1.Secrets (adminSA ["foo"; "default-token-x2x"]%string)) /\
  ServiceAccounts_Get (world unmatched) cs "kube-system" "gitlab-admin"
  = inl (adminSA ["foo"; "default-token-x2x"]%string) /\
  In (EvSecretsGet "kube-system" "") (trace (snd (SaveServiceAccountToken unmatched))) /\
  fst (SaveServiceAccountToken unmatched)
  = Ret (Some (withMessage emptyName "unable to get serviceaccount token")) /\
  ~ spec_TokenNotFound (fst (SaveServiceAccountToken unmatched)).
Proof.
  split; [repeat constructor | split; [reflexivity | split; [| split; [reflexivity |]]]].
  - vm_compute. do 3 right. now left.
  - intros (e & Hrun & Hdistinct). apply Hdistinct.
    injection Hrun as <-. now exists emptyName.
Qed.

(** C2 as the code has it, at the references of the spec's example. *)
Lemma token_extraction_selection_witness :
  fst (scan_secrets (v1.Secrets (adminSA ["foo"; abc123])) "" pair) = Ret (inl abc123) /\
  exists events,
    added pair (snd (SaveServiceAccountToken pair)) events /\
    filter is_secret_get events = [EvSecretsGet "kube-system" abc123].
Proof.
  apply (token_extraction_selection pair cs (adminSA ["foo"; abc123]));
    reflexivity.
Defined.

(** C3 at a cluster that has the account. *)
Lemma CreateServiceAccount_existing_witness :
  fst (CreateServiceAccount existing) = Ret None /\
  added existing (snd (CreateServiceAccount existing))
        [EvServiceAccountsGet "kube-system" "gitlab-admin";
         EvStdout ("Using existing gitlab-admin account" ++ nl)%string] /\
  filter is_create_call (trace (snd (CreateServiceAccount existing))) = [] /\
  world (snd ((CreateServiceAccount ;; CreateServiceAccount) existing)) = world existing.
Proof.
  pose proof (CreateServiceAccount_existing existing cs (adminSA []) eq_refl eq_refl) as H.
  cbv zeta in H.
  destruct H as (Hnil & Hadded & Hcreate & _ & Honce & _ & _ & _ & Htwice & _).
  split; [exact Hnil | split; [exact Hadded | split; [exact Hcreate |]]].
  exact (eq_trans Htwice Honce).
Defined.

(** C4 at a cluster that lacks the account. *)
Lemma CreateServiceAccount_absent_witness :
  exists events,
    added bare (snd (CreateServiceAccount bare)) events /\
    events = [EvServiceAccountsGet "kube-system" "gitlab-admin";
              EvServiceAccountsCreate "kube-system" saSpec] /\
    filter is_create_call events = [EvServiceAccountsCreate "kube-system" saSpec].
Proof.
  exact (CreateServiceAccount_absent bare cs
           (quoted "serviceaccounts" "gitlab-admin" "not found") eq_refl eq_refl).
Defined.

(** C5 with the group flag set. *)
Lemma group_flag_selects_target_witness :
  added validating (snd (Validate validating))
        [EvGetGroup (gitlab.NewClient "glpat-secret") "team"] /\
  (exists prints,
      added validating (snd (AddClusterToGitLab validating))
            (EvGroupAddCluster (gitlab.NewClient "glpat-secret") "team"
                               (groupClusterOpts (ready true "team")) :: prints) /\
      Forall (fun e => is_network_call e = false) prints) /\
  Forall (on_target true)
         (trace (snd (RunE ["team"]%string
                        (start (NewGitLabBootstrapOptions "" "glpat-secret" "" true)
                               workstation)))).
Proof.
  assert (Htoken : GitLabAPIToken (opts validating) <> ""%string) by discriminate.
  assert (Hid : GitLabProjectID (opts validating) <> ""%string) by discriminate.
  pose proof (group_flag_selects_target validating Htoken Hid) as H.
  cbv zeta in H. destruct H as (Hvalidate & _ & Hregister & Hwhole).
  split; [exact Hvalidate | split].
  - exact (Hregister validating (gitlab.NewClient "glpat-secret") eq_refl).
  - exact (proj2 (Hwhole ["team"]%string
                    (NewGitLabBootstrapOptions "" "glpat-secret" "" true) workstation)).
Defined.

(** C6 at the response of the spec's example. *)
Lemma addClusterToProject_prints_url_witness :
  fst (addClusterToProject registering) = Ret None /\
  In (EvStdout ("To finish up visit: https://gitlab.example/proj/clusters/42"
                  ++ " and install Helm and Runner." ++ nl)%string)
     (trace (snd (addClusterToProject registering))) /\
  ends_in "/clusters/42" "https://gitlab.example/proj/clusters/42".
Proof.
  pose proof (addClusterToProject_prints_url registering
                (gitlab.NewClient "glpat-secret")
                {| gitlab.pc_ID := 42; gitlab.pc_Name := "dev-cluster";
                   gitlab.pc_Project := Some project |}
                project eq_refl eq_refl eq_refl) as H.
  cbv zeta in H. destruct H as (Hnil & Hadded & Hurl).
  destruct (Hurl eq_refl eq_refl) as (_ & Hends).
  split; [exact Hnil | split; [| exact Hends]].
  unfold added in Hadded. rewrite Hadded. cbn. right. right. now left.
Defined.

(** C8 with the token glpat-secret. *)
Lemma Complete_token_sources_witness :
  GitLabAPIToken
    (opts (snd (Complete ["1234"]%string (start (set_GitLabAPIToken "" noFlags) workstation))))
  = "glpat-secret"%string /\
  GitLabAPIToken
    (opts (snd (Complete ["1234"]%string
                  (start (set_GitLabAPIToken "glpat-secret" noFlags) workstation))))
  = "glpat-secret"%string /\
  ~ In (EvGetenv "GITLAB_API_TOKEN")
       (trace (snd (Complete ["1234"]%string
                      (start (set_GitLabAPIToken "glpat-secret" noFlags) workstation)))).
Proof.
  pose proof (Complete_token_sources noFlags workstation "1234" "glpat-secret" eq_refl) as H.
  cbv zeta in H. destruct H as (Henv & Hflag & _ & _ & _ & _ & Hfull).
  split; [exact Henv | split; [exact Hflag |]].
  apply Hfull. discriminate.
Defined.

(** C9 at an account with two matching references. *)
Lemma SaveServiceAccountToken_first_match_witness :
  fst (scan_secrets (v1.Secrets (adminSA ["foo"; abc123; xyz789])) "" twofold)
  = Ret (inl abc123) /\
  exists events,
    added twofold (snd (SaveServiceAccountToken twofold)) events /\
    events = [EvServiceAccountsGet "kube-system" "gitlab-admin"]
               ++ inspections [tokenRef "foo"; tokenRef abc123]
               ++ [EvSecretsGet "kube-system" abc123] /\
    filter is_secret_get events = [EvSecretsGet "kube-system" abc123].
Proof.
  apply (SaveServiceAccountToken_first_match twofold cs
           (adminSA ["foo"; abc123; xyz789])
           [tokenRef "foo"] [tokenRef xyz789] (tokenRef abc123));
    try reflexivity.
  repeat constructor.
Defined.

(** C10 at an account without a matching reference. *)
Lemma SaveServiceAccountToken_no_match_witness :
  added unmatched (snd (SaveServiceAccountToken unmatched))
        ([EvServiceAccountsGet "kube-system" "gitlab-admin"]
           ++ inspections [tokenRef "foo"; tokenRef "default-token-x2x"]
           ++ [EvSecretsGet "kube-system" ""]) /\
  fst (SaveServiceAccountToken unmatched)
  = Ret (Some (withMessage emptyName "unable to get serviceaccount token")).
Proof.
  assert (Hnone : none_match (v1.Secrets (adminSA ["foo"; "default-token-x2x"]%string)))
    by repeat constructor.
  pose proof (SaveServiceAccountToken_no_match unmatched cs
                (adminSA ["foo"; "default-token-x2x"]%string) eq_refl eq_refl Hnone) as H.
  destruct H as (Hadded & Hfail).
  split; [exact Hadded |].
  exact (proj1 (Hfail emptyName eq_refl)).
Defined.

(** * Further properties of the pipeline *)

Section Steps.
Context {W : Type} {E : Env W}.

(** ** Complete and Validate: arguments and credentials *)

(** Complete accepts exactly one positional argument: with none, or with
    two or more, it returns "GitLab project id is required" and leaves the
    state alone; the extra arguments are not ignored.  The command stops
    there. *)
Theorem Complete_argument_count (args : list string) (s : State W) :
  length args <> 1%nat ->
  Complete args s = (Ret (fmt_Errorf "GitLab project id is required"), s) /\
  RunE args s = (Ret (fmt_Errorf "GitLab project id is required"), s).
Proof.
  intros Hlen. apply Nat.eqb_neq in Hlen.
  assert (Hrun : Complete args s = (Ret (fmt_Errorf "GitLab project id is required"), s)).
  { unfold Complete. now rewrite Hlen. }
  split; [exact Hrun |].
  unfold RunE, andThen, bind. now rewrite Hrun.
Qed.

(** Validate with an empty token, or with an empty id, returns before it
    builds a client or issues a request: the state is unchanged.  The token
    is looked at first, so with both empty the message is the token's. *)
Theorem Validate_missing_credentials (s : State W) :
  GitLabAPIToken (opts s) = ""%string \/ GitLabProjectID (opts s) = ""%string ->
  Validate s =
  (Ret (fmt_Errorf (if (GitLabAPIToken (opts s) =? "")%string
                    then "GitLab API token is required"
                    else "GitLab project id is required")), s).
Proof.
  intros Hmissing. unfold Validate, bind, get_opts, ret.
  destruct (GitLabAPIToken (opts s) =? "")%string eqn:Htoken; [reflexivity |].
  destruct Hmissing as [Hempty | Hempty].
  - rewrite Hempty in Htoken. discriminate.
  - now rewrite Hempty.
Qed.

(** With a token and an id, Validate stores the client it built whatever
    the lookup answers, leaves the world alone, and returns nil exactly
    when the lookup succeeded; a failed lookup comes back wrapped with the
    message of the target. *)
Theorem Validate_result (s : State W) :
  GitLabAPIToken (opts s) <> ""%string ->
  GitLabProjectID (opts s) <> ""%string ->
  let api := validated_client (opts s) in
  let id := GitLabProjectID (opts s) in
  opts (snd (Validate s)) = set_GitLabAPI api (opts s) /\
  world (snd (Validate s)) = world s /\
  fst (Validate s) =
  Ret (if GitLabGroupCluster (opts s)
       then errors_Wrap (err_of (Groups_GetGroup (world s) api id))
                        "unable to get GitLab group"
       else errors_Wrap (err_of (Projects_GetProject (world s) api id))
                        "unable to get GitLab project").
Proof.
  intros Htoken Hid api id. subst api id.
  apply String.eqb_neq in Htoken, Hid.
  unfold Validate, validated_client. unfold_prog. cbn.
  rewrite Htoken, Hid. cbn.
  destruct (GitLabURL (opts s) =? "")%string; cbn;
    destruct (GitLabGroupCluster (opts s)); cbn;
    match goal with
    | |- context [match ?q with inl _ => _ | inr _ => _ end] => destruct q
    end; cbn; repeat split.
Qed.

(** ** CreateClusterRoleBinding *)

(** When the GET of the gitlab-admin binding succeeds, the step returns
    nil after the GET and the reuse line: no CREATE, options and world
    unchanged; the binding found is not compared with the one the program
    would create. *)
Theorem CreateClusterRoleBinding_existing
    (s : State W) (cs : kubernetes.Clientset) (crb : rbacv1.ClusterRoleBinding) :
  KubeClientSet (opts s) = Some cs ->
  ClusterRoleBindings_Get (world s) cs "gitlab-admin" = inl crb ->
  CreateClusterRoleBinding s =
  (Ret None,
   {| opts := opts s; world := world s;
      trace := trace s ++ [EvClusterRoleBindingsGet "gitlab-admin";
                           EvStdout ("Using existing clusterrolebinding" ++ nl)%string] |}).
Proof.
  intros Hcs Hget. unfold CreateClusterRoleBinding. unfold_prog. cbn.
  rewrite Hcs. cbn. rewrite Hget. cbn. now rewrite <- !app_assoc.
Qed.

(** When the GET of the binding fails, whatever the error, the step issues
    one CREATE: a ClusterRoleBinding named gitlab-admin whose one subject is
    the ServiceAccount gitlab-admin of kube-system and whose role is the
    ClusterRole cluster-admin.  The result is nil when the CREATE succeeds
    and its error, wrapped, when it fails. *)
Theorem CreateClusterRoleBinding_absent
    (s : State W) (cs : kubernetes.Clientset) (e : error) :
  KubeClientSet (opts s) = Some cs ->
  ClusterRoleBindings_Get (world s) cs "gitlab-admin" = inr e ->
  let binding :=
    {| rbacv1.crb_ObjectMeta :=
         {| metav1.Name := "gitlab-admin"; metav1.GenerateName := "";
            metav1.Namespace := ""; metav1.Labels := []; metav1.Annotations := [] |};
       rbacv1.Subjects :=
         [{| rbacv1.subj_Kind := "ServiceAccount"; rbacv1.subj_APIGroup := "";
             rbacv1.subj_Name := "gitlab-admin"; rbacv1.subj_Namespace := "kube-system" |}];
       rbacv1.crb_RoleRef :=
         {| rbacv1.role_APIGroup := ""; rbacv1.role_Kind := "ClusterRole";
            rbacv1.role_Name := "cluster-admin" |} |} in
  let created := ClusterRoleBindings_Create (world s) cs binding in
  CreateClusterRoleBinding s =
  (Ret (errors_Wrap (err_of (fst created)) "unable to create clusterrolebinding"),
   {| opts := opts s; world := snd created;
      trace := trace s ++ [EvClusterRoleBindingsGet "gitlab-admin";
                           EvClusterRoleBindingsCreate binding] |}).
Proof.
  intros Hcs Hget binding created. subst binding created.
  unfold CreateClusterRoleBinding. unfold_prog. cbn.
  rewrite Hcs. cbn. rewrite Hget. cbn.
  destruct (fst (ClusterRoleBindings_Create _ _ _)); cbn; now rewrite <- !app_assoc.
Qed.

(** ** Run stops at the first step that fails *)

(** When the account is missing and its CREATE fails, Run returns the
    CREATE's error wrapped with "unable to create service account", and the
    two requests of that step are the only calls made: no binding, secret
    or GitLab request follows. *)
Theorem Run_stops_when_account_create_fails
    (s : State W) (cs : kubernetes.Clientset) (missing refused : error) :
  KubeClientSet (opts s) = Some cs ->
  ServiceAccounts_Get (world s) cs "kube-system" "gitlab-admin" = inr missing ->
  fst (ServiceAccounts_Create (world s) cs "kube-system" saSpec) = inr refused ->
  Run s =
  (Ret (Some (withMessage refused "unable to create service account")),
   {| opts := opts s;
      world := snd (ServiceAccounts_Create (world s) cs "kube-system" saSpec);
      trace := trace s ++ [EvServiceAccountsGet "kube-system" "gitlab-admin";
                           EvServiceAccountsCreate "kube-system" saSpec] |}).
Proof.
  intros Hcs Hget Hcreate. unfold Run, CreateServiceAccount. unfold_prog. cbn.
  rewrite Hcs. cbn. rewrite Hget. cbn. rewrite Hcreate. cbn.
  now rewrite <- !app_assoc.
Qed.

(** When the account is created and the binding's CREATE then fails, Run
    returns that error wrapped with "unable to create clusterrolebinding"
    after four requests: the account's GET and CREATE, the binding's GET and
    CREATE.  Nothing is issued to undo the account: the world is the one the
    two CREATE requests left. *)
Theorem Run_keeps_account_when_binding_create_fails
    (s : State W) (cs : kubernetes.Clientset)
    (missing missing' refused : error) (sa : v1.ServiceAccount) (w1 : W) :
  KubeClientSet (opts s) = Some cs ->
  ServiceAccounts_Get (world s) cs "kube-system" "gitlab-admin" = inr missing ->
  ServiceAccounts_Create (world s) cs "kube-system" saSpec = (inl sa, w1) ->
  ClusterRoleBindings_Get w1 cs "gitlab-admin" = inr missing' ->
  fst (ClusterRoleBindings_Create w1 cs crbSpec) = inr refused ->
  Run s =
  (Ret (Some (withMessage refused "unable to create clusterrolebinding")),
   {| opts := opts s;
      world := snd (ClusterRoleBindings_Create w1 cs crbSpec);
      trace := trace s ++ [EvServiceAccountsGet "kube-system" "gitlab-admin";
                           EvServiceAccountsCreate "kube-system" saSpec;
                           EvClusterRoleBindingsGet "gitlab-admin";
                           EvClusterRoleBindingsCreate crbSpec] |}).
Proof.
  intros Hcs Hget Hcreate Hget' Hcreate'.
  unfold Run, CreateServiceAccount, CreateClusterRoleBinding. unfold_prog. cbn.
  rewrite Hcs. cbn. rewrite Hget. cbn. rewrite Hcreate. cbn.
  rewrite Hcs. cbn. rewrite Hget'. cbn. rewrite Hcreate'. cbn.
  now rewrite <- !app_assoc.
Qed.

(** ** Token extraction *)

(** The loop as a function of the list: where it leaves [tokenName] and
    which entries it inspects. *)
Lemma scan_secrets_run
    (refs : list v1.ObjectReference) (tokenName : string) (s : State W) :
  scan_secrets refs tokenName s =
  (Ret (inl (first_match_name refs tokenName)),
   {| opts := opts s; world := world s;
      trace := trace s ++ inspections (upto_first_match refs) |}).
Proof.
  revert s. induction refs as [| r refs IH]; intros s.
  - cbn. unfold ret. rewrite app_nil_r. now destruct s.
  - cbn [scan_secrets]. unfold bind at 1. unfold emit at 1.
    unfold first_match_name, matches, regexp_MatchString_token in *.
    cbn [find upto_first_match fst matches].
    unfold matches, regexp_MatchString_token. cbn [fst].
    destruct (String.prefix "gitlab-admin-token-" (v1.ref_Name r)).
    + reflexivity.
    + rewrite IH. cbn. now rewrite app_assoc_cons.
Qed.

Lemma first_match_name_spec (refs : list v1.ObjectReference) (fallback : string) :
  (exists front hit back,
      refs = front ++ hit :: back /\
      forallb (fun r => negb (matches r)) front = true /\
      matches hit = true /\
      first_match_name refs fallback = v1.ref_Name hit /\
      upto_first_match refs = front ++ [hit]) \/
  (forallb (fun r => negb (matches r)) refs = true /\
   first_match_name refs fallback = fallback /\
   upto_first_match refs = refs).
Proof.
  unfold first_match_name. induction refs as [| r refs IH].
  - right. repeat split.
  - cbn [find upto_first_match forallb]. destruct (matches r) eqn:Hr.
    + left. exists [], r, refs. repeat split; assumption.
    + destruct IH as [(front & hit & back & -> & Hfront & Hhit & Hname & Hupto)
                     | (Hnone & Hname & Hupto)].
      * left. exists (r :: front), hit, back. cbn [forallb app]. rewrite Hr, Hupto.
        repeat split; assumption.
      * right. rewrite Hupto. repeat split; assumption.
Qed.

(** The loop over the secret references, for every list.  It never returns
    from inside (the pattern always compiles) and changes neither the
    options nor the world.  Either the list splits at its first entry that
    starts with gitlab-admin-token-: the loop ends with [tokenName] at that
    entry's name and has called the regexp on the entries up to it, in
    order, and on none after it.  Or no entry matches: [tokenName] is left
    as it was and every entry has been inspected. *)
Theorem scan_secrets_finds_first
    (refs : list v1.ObjectReference) (tokenName : string) (s : State W) :
  exists (name : string) (seen : list v1.ObjectReference),
    scan_secrets refs tokenName s =
    (Ret (inl name),
     {| opts := opts s; world := world s; trace := trace s ++ inspections seen |}) /\
    ((exists front hit back,
         refs = front ++ hit :: back /\
         forallb (fun r => negb (matches r)) front = true /\
         matches hit = true /\
         name = v1.ref_Name hit /\ seen = front ++ [hit]) \/
     (forallb (fun r => negb (matches r)) refs = true /\
      name = tokenName /\ seen = refs)).
Proof.
  exists (first_match_name refs tokenName), (upto_first_match refs).
  split; [apply scan_secrets_run |].
  destruct (first_match_name_spec refs tokenName)
    as [(front & hit & back & Hrefs & Hfront & Hhit & Hname & Hupto)
       | (Hnone & Hname & Hupto)].
  - left. exists front, hit, back. repeat split; assumption.
  - right. repeat split; assumption.
Qed.

(** When the account is fetched, the secret named by its first matching
    reference is fetched too, and that secret's token field is not empty,
    SaveServiceAccountToken returns nil with [ServiceAccountToken] set to
    the token; the other options and the world are unchanged. *)
Theorem SaveServiceAccountToken_stores_token
    (s : State W) (cs : kubernetes.Clientset) (sa : v1.ServiceAccount)
    (secret : v1.Secret) :
  KubeClientSet (opts s) = Some cs ->
  ServiceAccounts_Get (world s) cs "kube-system" "gitlab-admin" = inl sa ->
  Secrets_Get (world s) cs "kube-system" (first_match_name (v1.Secrets sa) "") = inl secret ->
  v1.data_string secret "token" <> ""%string ->
  SaveServiceAccountToken s =
  (Ret None,
   {| opts := set_ServiceAccountToken (v1.data_string secret "token") (opts s);
      world := world s;
      trace := trace s ++ [EvServiceAccountsGet "kube-system" "gitlab-admin"]
                       ++ inspections (upto_first_match (v1.Secrets sa))
                       ++ [EvSecretsGet "kube-system"
                                        (first_match_name (v1.Secrets sa) "")] |}).
Proof.
  intros Hcs Hget Hsecret Htoken. apply String.eqb_neq in Htoken.
  rewrite (SaveServiceAccountToken_after_scan s cs sa _ _ Hcs Hget
             (scan_secrets_run (v1.Secrets sa) "")).
  now rewrite Hsecret, Htoken.
Qed.

(** When the GET of the account fails, SaveServiceAccountToken returns its
    error wrapped with "unable to get serviceaccount" and stops: no regexp
    call, no Secret GET, nothing changed. *)
Theorem SaveServiceAccountToken_account_missing
    (s : State W) (cs : kubernetes.Clientset) (e : error) :
  KubeClientSet (opts s) = Some cs ->
  ServiceAccounts_Get (world s) cs "kube-system" "gitlab-admin" = inr e ->
  SaveServiceAccountToken s =
  (Ret (Some (withMessage e "unable to get serviceaccount")),
   {| opts := opts s; world := world s;
      trace := trace s ++ [EvServiceAccountsGet "kube-system" "gitlab-admin"] |}).
Proof.
  intros Hcs Hget. unfold SaveServiceAccountToken. unfold_prog. cbn.
  rewrite Hcs. cbn. now rewrite Hget.
Qed.

Lemma inspections_no_create (refs : list v1.ObjectReference) :
  filter is_create_call (inspections refs) = [].
Proof. induction refs as [| r refs IH]; [reflexivity | exact IH]. Qed.

Lemma inspections_no_gitlab (refs : list v1.ObjectReference) :
  filter is_gitlab_call (inspections refs) = [].
Proof. induction refs as [| r refs IH]; [reflexivity | exact IH]. Qed.

(** From any state, SaveServiceAccountToken only reads the cluster: the
    world is unchanged, the options change in [ServiceAccountToken] at
    most, and the events it adds hold no CREATE and no GitLab request. *)
Theorem SaveServiceAccountToken_reads_only (s : State W) :
  world (snd (SaveServiceAccountToken s)) = world s /\
  same_but_token (opts s) (opts (snd (SaveServiceAccountToken s))) /\
  exists events,
    added s (snd (SaveServiceAccountToken s)) events /\
    filter is_create_call events = [] /\
    filter is_gitlab_call events = [].
Proof.
  destruct (KubeClientSet (opts s)) as [cs |] eqn:Hcs.
  - destruct (ServiceAccounts_Get (world s) cs "kube-system" "gitlab-admin")
      as [sa | e] eqn:Hget.
    + rewrite (SaveServiceAccountToken_after_scan s cs sa _ _ Hcs Hget
                 (scan_secrets_run (v1.Secrets sa) "")).
      cbn [fst snd opts world trace]. split; [reflexivity | split].
      * destruct (Secrets_Get _ _ _ _) as [secret | e]; [| reflexivity].
        destruct (_ =? "")%string; reflexivity.
      * eexists. split; [reflexivity |].
        rewrite !filter_app, inspections_no_create, inspections_no_gitlab.
        split; reflexivity.
    + unfold SaveServiceAccountToken. unfold_prog. cbn.
      rewrite Hcs. cbn. rewrite Hget. cbn. repeat split.
      exists [EvServiceAccountsGet "kube-system" "gitlab-admin"]. repeat split.
  - unfold SaveServiceAccountToken. unfold_prog. cbn. rewrite Hcs. cbn.
    repeat split. exists []. unfold added. cbn. rewrite app_nil_r. repeat split.
Qed.

(** ** Registration *)

(** When the group cluster-add call succeeds and its response carries the
    group, addClusterToGroup returns nil after printing the confirmation
    and the line whose URL is the group's WebURL followed by /clusters/ and
    the cluster id in decimal; the request carries the cluster name, the
    scope "*", the API host, the saved token and the CA certificate. *)
Theorem addClusterToGroup_prints_url
    (s : State W) (api : gitlab.Client)
    (gc : gitlab.GroupCluster) (group : gitlab.Group) :
  GitLabAPI (opts s) = Some api ->
  let request :=
    {| gitlab.g_Name := Some (ClusterName (opts s));
       gitlab.g_Domain := None; gitlab.g_Enabled := None; gitlab.g_Managed := None;
       gitlab.g_EnvironmentScope := Some "*"%string;
       gitlab.g_PlatformKubernetes :=
         Some {| gitlab.g_APIURL := Some (ClusterHost (opts s));
                 gitlab.g_Token := Some (ServiceAccountToken (opts s));
                 gitlab.g_CaCert := Some (ClusterCA (opts s));
                 gitlab.g_Namespace := None;
                 gitlab.g_AuthorizationType := None |} |} in
  fst (GroupCluster_AddCluster (world s) api (GitLabProjectID (opts s)) request) = inl gc ->
  gitlab.gc_Group gc = Some group ->
  let url := (gitlab.grp_WebURL group ++ "/clusters/" ++ fmt_d (gitlab.gc_ID gc))%string in
  fst (addClusterToGroup s) = Ret None /\
  added s (snd (addClusterToGroup s))
        [EvGroupAddCluster api (GitLabProjectID (opts s)) request;
         EvStdout ("Cluster successfully added to group!" ++ nl)%string;
         EvStdout ("To finish up visit: " ++ url ++ " and install Helm and Runner." ++ nl)%string].
Proof.
  intros Hapi request Hadd Hgroup url. subst request url.
  unfold addClusterToGroup, added, clusterURL, finishUp, groupClusterOpts in *.
  unfold_prog. cbn. rewrite Hapi. cbn. rewrite Hadd. cbn. rewrite Hgroup. cbn.
  split; [reflexivity |]. now rewrite <- !app_assoc.
Qed.

(** When the cluster-add call fails, AddClusterToGitLab returns its error
    wrapped with the message of the target, and the request is the only
    event: nothing is printed and the call is not repeated. *)
Theorem AddClusterToGitLab_failure (s : State W) (api : gitlab.Client) (e : error) :
  GitLabAPI (opts s) = Some api ->
  (if GitLabGroupCluster (opts s)
   then fst (GroupCluster_AddCluster (world s) api (GitLabProjectID (opts s))
               (groupClusterOpts (opts s))) = inr e
   else fst (ProjectCluster_AddCluster (world s) api (GitLabProjectID (opts s))
               (projectClusterOpts (opts s))) = inr e) ->
  fst (AddClusterToGitLab s) =
  Ret (Some (withMessage e (if GitLabGroupCluster (opts s)
                            then "unable to assign kubernetes cluster to group"
                            else "unable to assign kubernetes cluster to project"))) /\
  added s (snd (AddClusterToGitLab s))
        [if GitLabGroupCluster (opts s)
         then EvGroupAddCluster api (GitLabProjectID (opts s)) (groupClusterOpts (opts s))
         else EvProjectAddCluster api (GitLabProjectID (opts s)) (projectClusterOpts (opts s))].
Proof.
  intros Hapi Hfail.
  unfold AddClusterToGitLab, addClusterToGroup, addClusterToProject, added.
  unfold_prog. cbn.
  destruct (GitLabGroupCluster (opts s)); cbn; rewrite Hapi; cbn; rewrite Hfail; cbn;
    now split.
Qed.

(** ** Run on a cluster that is already bootstrapped *)

Lemma andThen_nil (m k : M W goerror) (s s' : State W) :
  m s = (Ret None, s') -> andThen m k s = k s'.
Proof. intros Hm. unfold andThen, bind. now rewrite Hm. Qed.

Lemma andThen_error (m k : M W goerror) (s s' : State W) (e : error) :
  m s = (Ret (Some e), s') -> andThen m k s = (Ret (Some e), s').
Proof. intros Hm. unfold andThen, bind. now rewrite Hm. Qed.

Lemma andThen_panic (m k : M W goerror) (s s' : State W) (msg : string) :
  m s = (Panic msg, s') -> andThen m k s = (Panic msg, s').
Proof. intros Hm. unfold andThen, bind. now rewrite Hm. Qed.

(** When the account and the binding both exist and the account's token
    secret holds a token, Run creates nothing: it reuses both, reads the
    token and issues the one cluster-add request, to the target the flag
    selects, carrying exactly the token it has just read. *)
Theorem Run_on_bootstrapped_cluster
    (s : State W) (cs : kubernetes.Clientset) (api : gitlab.Client)
    (sa : v1.ServiceAccount) (crb : rbacv1.ClusterRoleBinding) (secret : v1.Secret) :
  KubeClientSet (opts s) = Some cs ->
  GitLabAPI (opts s) = Some api ->
  ServiceAccounts_Get (world s) cs "kube-system" "gitlab-admin" = inl sa ->
  ClusterRoleBindings_Get (world s) cs "gitlab-admin" = inl crb ->
  Secrets_Get (world s) cs "kube-system" (first_match_name (v1.Secrets sa) "") = inl secret ->
  v1.data_string secret "token" <> ""%string ->
  let saved := set_ServiceAccountToken (v1.data_string secret "token") (opts s) in
  let registration :=
    if GitLabGroupCluster (opts s)
    then EvGroupAddCluster api (GitLabProjectID (opts s)) (groupClusterOpts saved)
    else EvProjectAddCluster api (GitLabProjectID (opts s)) (projectClusterOpts saved) in
  opts (snd (Run s)) = saved /\
  exists prints,
    added s (snd (Run s))
          ([EvServiceAccountsGet "kube-system" "gitlab-admin";
            EvStdout ("Using existing gitlab-admin account" ++ nl)%string;
            EvClusterRoleBindingsGet "gitlab-admin";
            EvStdout ("Using existing clusterrolebinding" ++ nl)%string;
            EvServiceAccountsGet "kube-system" "gitlab-admin"]
             ++ inspections (upto_first_match (v1.Secrets sa))
             ++ [EvSecretsGet "kube-system" (first_match_name (v1.Secrets sa) "");
                 registration]
             ++ prints) /\
    Forall (fun e => is_network_call e = false) prints /\
    filter is_create_call (trace (snd (Run s))) = filter is_create_call (trace s).
Proof.
  intros Hcs Hapi Hsa Hcrb Hsecret Htoken saved registration.
  subst saved registration. apply String.eqb_neq in Htoken.
  (* the three Kubernetes steps *)
  set (s1 := {| opts := opts s; world := world s;
                trace := trace s ++ [EvServiceAccountsGet "kube-system" "gitlab-admin";
                                     EvStdout ("Using existing gitlab-admin account" ++ nl)%string] |}).
  set (s2 := {| opts := opts s; world := world s;
                trace := trace s1 ++ [EvClusterRoleBindingsGet "gitlab-admin";
                                      EvStdout ("Using existing clusterrolebinding" ++ nl)%string] |}).
  set (s3 := {| opts := set_ServiceAccountToken (v1.data_string secret "token") (opts s);
                world := world s;
                trace := trace s2 ++ [EvServiceAccountsGet "kube-system" "gitlab-admin"]
                                  ++ inspections (upto_first_match (v1.Secrets sa))
                                  ++ [EvSecretsGet "kube-system"
                                                   (first_match_name (v1.Secrets sa) "")] |}).
  assert (H1 : CreateServiceAccount s = (Ret None, s1)).
  { unfold CreateServiceAccount. unfold_prog. cbn. rewrite Hcs. cbn. rewrite Hsa. cbn.
    subst s1. now rewrite <- !app_assoc. }
  assert (H2 : CreateClusterRoleBinding s1 = (Ret None, s2)).
  { unfold CreateClusterRoleBinding. unfold_prog. cbn. rewrite Hcs. cbn. rewrite Hcrb. cbn.
    subst s2. cbn. now rewrite <- !app_assoc. }
  assert (H3 : SaveServiceAccountToken s2 = (Ret None, s3)).
  { rewrite (SaveServiceAccountToken_after_scan s2 cs sa _ _ Hcs Hsa
               (scan_secrets_run (v1.Secrets sa) "")).
    cbn [opts world s2]. now rewrite Hsecret, Htoken. }
  unfold Run.
  rewrite (andThen_nil _ _ _ _ H1), (andThen_nil _ _ _ _ H2), (andThen_nil _ _ _ _ H3).
  assert (Htrace : trace s3 =
                   trace s
                     ++ [EvServiceAccountsGet "kube-system" "gitlab-admin";
                         EvStdout ("Using existing gitlab-admin account" ++ nl)%string;
                         EvClusterRoleBindingsGet "gitlab-admin";
                         EvStdout ("Using existing clusterrolebinding" ++ nl)%string;
                         EvServiceAccountsGet "kube-system" "gitlab-admin"]
                     ++ inspections (upto_first_match (v1.Secrets sa))
                     ++ [EvSecretsGet "kube-system" (first_match_name (v1.Secrets sa) "")]).
  { subst s3 s2 s1. cbn [trace]. now rewrite <- !app_assoc. }
  assert (Hopts : opts s3 = set_ServiceAccountToken (v1.data_string secret "token") (opts s))
    by reflexivity.
  assert (Hworld : world s3 = world s) by reflexivity.
  clearbody s3. clear H1 H2 H3 s1 s2.
  (* the registration *)
  assert (Hcreate : forall tail : list Event,
             filter is_create_call tail = [] ->
             filter is_create_call (trace s3 ++ tail) = filter is_create_call (trace s)).
  { intros tail Htail. rewrite Htrace, !filter_app, inspections_no_create, Htail. cbn.
    now rewrite !app_nil_r. }
  unfold andThen, AddClusterToGitLab, addClusterToGroup, addClusterToProject, added.
  unfold_prog. cbn. rewrite ?Hopts, ?Hworld. cbn.
  destruct (GitLabGroupCluster (opts s)); cbn; rewrite ?Hopts, ?Hworld; cbn;
    rewrite Hapi; cbn.
  - destruct (fst (GroupCluster_AddCluster _ _ _ _)) as [gc | e]; cbn;
      [destruct (gitlab.gc_Group gc); cbn |];
      (split; [now rewrite ?Hopts |]); eexists;
      (split; [rewrite Htrace, <- ?app_assoc; cbn; reflexivity
              | split; [repeat constructor
                       | rewrite <- ?app_assoc; now apply Hcreate]]).
  - destruct (fst (ProjectCluster_AddCluster _ _ _ _)) as [pc | e]; cbn;
      [destruct (gitlab.pc_Project pc); cbn |];
      (split; [now rewrite ?Hopts |]); eexists;
      (split; [rewrite Htrace, <- ?app_assoc; cbn; reflexivity
              | split; [repeat constructor
                       | rewrite <- ?app_assoc; now apply Hcreate]]).
Qed.

(** ** What a successful Complete leaves in the options *)

Lemma Complete_load_success (s : State W) :
  fst (Complete_load s) = Ret None ->
  exists config api ctx clientset,
    clientcmd_BuildConfigFromFlags (world s) "" (KubeConfig (opts s)) = inl config /\
    clientcmd_LoadFromFile (world s) (KubeConfig (opts s)) = inl api /\
    clientcmdapi.lookup (clientcmdapi.CurrentContext api) (clientcmdapi.Contexts api)
    = Some ctx /\
    kubernetes_NewForConfig (world s) config = inl clientset /\
    snd (Complete_load s) =
    {| opts := set_KubeClientSet clientset
                 (set_ClusterName (clientcmdapi.Cluster ctx)
                    (set_KubeAPI api (set_RestConfig config (opts s))));
       world := world s;
       trace := trace s ++ [EvBuildConfigFromFlags "" (KubeConfig (opts s));
                            EvLoadFromFile (KubeConfig (opts s));
                            EvNewForConfig config] |}.
Proof.
  unfold Complete_load. unfold_prog. cbn.
  destruct (clientcmd_BuildConfigFromFlags _ _ _) as [config | e]; cbn; [| discriminate].
  destruct (clientcmd_LoadFromFile _ _) as [api | e]; cbn; [| discriminate].
  destruct (_ <=? 0)%nat; cbn; [discriminate |].
  destruct (_ =? "")%string; cbn; [discriminate |].
  destruct (clientcmdapi.lookup _ _) as [ctx |] eqn:Hctx; cbn; [| discriminate].
  destruct (kubernetes_NewForConfig _ _) as [clientset | e] eqn:Hnew; cbn; [| discriminate].
  intros _. exists config, api, ctx, clientset.
  split; [reflexivity | split; [reflexivity | split; [assumption | split; [assumption |]]]].
  now rewrite <- !app_assoc.
Qed.

Lemma Complete_kubeconfig_success (s : State W) :
  fst (Complete_kubeconfig s) = Ret None ->
  exists path config api ctx clientset,
    clientcmd_BuildConfigFromFlags (world s) "" path = inl config /\
    clientcmd_LoadFromFile (world s) path = inl api /\
    clientcmdapi.lookup (clientcmdapi.CurrentContext api) (clientcmdapi.Contexts api)
    = Some ctx /\
    kubernetes_NewForConfig (world s) config = inl clientset /\
    opts (snd (Complete_kubeconfig s)) =
    set_KubeClientSet clientset
      (set_ClusterName (clientcmdapi.Cluster ctx)
         (set_KubeAPI api (set_RestConfig config (set_KubeConfig path (opts s))))) /\
    world (snd (Complete_kubeconfig s)) = world s.
Proof.
  destruct (negb (ConfigFlags_KubeConfig (opts s) =? "")%string) eqn:Hflag.
  - assert (Heq : Complete_kubeconfig s =
                  Complete_load
                    {| opts := set_KubeConfig (ConfigFlags_KubeConfig (opts s)) (opts s);
                       world := world s; trace := trace s |}).
    { unfold Complete_kubeconfig, bind, get_opts, modify_opts. now rewrite Hflag. }
    rewrite Heq. intros Hnil. apply Complete_load_success in Hnil.
    destruct Hnil as (config & api & ctx & clientset & Hconfig & Hapi & Hctx & Hnew & ->).
    exists (ConfigFlags_KubeConfig (opts s)), config, api, ctx, clientset.
    repeat split; assumption.
  - destruct (os_UserHomeDir (world s)) as [home | e] eqn:Hhome.
    + assert (Heq : Complete_kubeconfig s =
                    Complete_load
                      {| opts := set_KubeConfig
                                   (filepath_Join [home; ".kube"; "config"]%string) (opts s);
                         world := world s; trace := trace s ++ [EvUserHomeDir] |}).
      { unfold Complete_kubeconfig, bind, get_opts, modify_opts, query.
        rewrite Hflag. cbn [opts world trace]. now rewrite Hhome. }
      rewrite Heq. intros Hnil. apply Complete_load_success in Hnil.
      destruct Hnil as (config & api & ctx & clientset & Hconfig & Hapi & Hctx & Hnew & ->).
      exists (filepath_Join [home; ".kube"; "config"]%string), config, api, ctx, clientset.
      repeat split; assumption.
    + unfold Complete_kubeconfig, bind, get_opts, query, ret.
      rewrite Hflag. cbn [opts world trace]. rewrite Hhome. discriminate.
Qed.

(** Complete with one argument: the id and the token are settled, then the
    kubeconfig is loaded. *)
Lemma Complete_one (id : string) (s : State W) :
  Complete [id] s =
  Complete_kubeconfig
    {| opts := set_GitLabAPIToken
                 (if (GitLabAPIToken (opts s) =? "")%string
                  then os_Getenv (world s) "GITLAB_API_TOKEN"
                  else GitLabAPIToken (opts s))
                 (set_GitLabProjectID id (opts s));
       world := world s;
       trace := trace s ++ (if (GitLabAPIToken (opts s) =? "")%string
                            then [EvGetenv "GITLAB_API_TOKEN"]
                            else []) |}.
Proof.
  unfold Complete, bind, get_opts, modify_opts, query, ret.
  cbn [length Nat.eqb negb nth opts world trace GitLabAPIToken set_GitLabProjectID].
  destruct (GitLabAPIToken (opts s) =? "")%string; [reflexivity |].
  rewrite app_nil_r. destruct s as [o w tr]. destruct o. reflexivity.
Qed.

(** Complete returns nil only when it was given one argument, the
    kubeconfig was parsed twice over (client configuration and API object),
    the current context is defined and a client set was built; the options
    then hold the id, the resolved token, the configuration with its host
    and CA data, the cluster of the current context and the client set.
    The world is as it was. *)
Theorem Complete_success (args : list string) (s : State W) :
  fst (Complete args s) = Ret None ->
  let o' := opts (snd (Complete args s)) in
  exists id config api ctx clientset,
    args = [id] /\
    GitLabProjectID o' = id /\
    GitLabAPIToken o' = (if (GitLabAPIToken (opts s) =? "")%string
                         then os_Getenv (world s) "GITLAB_API_TOKEN"
                         else GitLabAPIToken (opts s)) /\
    clientcmd_BuildConfigFromFlags (world s) "" (KubeConfig o') = inl config /\
    RestConfig o' = Some config /\
    ClusterHost o' = restclient.Host config /\
    ClusterCA o' = restclient.CAData config /\
    clientcmd_LoadFromFile (world s) (KubeConfig o') = inl api /\
    KubeAPI o' = Some api /\
    clientcmdapi.lookup (clientcmdapi.CurrentContext api) (clientcmdapi.Contexts api)
    = Some ctx /\
    ClusterName o' = clientcmdapi.Cluster ctx /\
    kubernetes_NewForConfig (world s) config = inl clientset /\
    KubeClientSet o' = Some clientset /\
    world (snd (Complete args s)) = world s.
Proof.
  destruct args as [| id [| ? ?]]; [discriminate | | discriminate].
  rewrite (Complete_one id s).
  intros Hnil. apply Complete_kubeconfig_success in Hnil.
  destruct Hnil as (path & config & api & ctx & clientset
                    & Hconfig & Hapi & Hctx & Hnew & Hopts & Hworld).
  cbn [opts world] in *. cbv zeta. rewrite Hopts, Hworld.
  exists id, config, api, ctx, clientset. cbn. repeat split; assumption.
Qed.

(** ** Where Complete takes the kubeconfig from *)

Ltac finish_load :=
  do 3 eexists;
  split; [ intros tr; cbn; rewrite <- ?app_assoc; cbn; reflexivity
         | split; reflexivity ].

(** The load of the kubeconfig keeps the path and only reads the file and
    builds the client set. *)
Lemma Complete_load_effect (o : GitLabBootstrapOptions) (w : W) :
  exists (r : result goerror) (o' : GitLabBootstrapOptions) (events : list Event),
    (forall tr : list Event,
        Complete_load {| opts := o; world := w; trace := tr |} =
        (r, {| opts := o'; world := w; trace := tr ++ events |})) /\
    KubeConfig o' = KubeConfig o /\
    forallb is_kubeconfig_load events = true.
Proof.
  unfold Complete_load. unfold_prog. cbn.
  destruct (clientcmd_BuildConfigFromFlags _ _ _) as [config | e]; cbn; [| finish_load].
  destruct (clientcmd_LoadFromFile _ _) as [api | e]; cbn; [| finish_load].
  destruct (_ <=? 0)%nat; cbn; [finish_load |].
  destruct (_ =? "")%string; cbn; [finish_load |].
  destruct (clientcmdapi.lookup _ _) as [ctx |]; cbn; [| finish_load].
  destruct (kubernetes_NewForConfig _ _) as [clientset | e]; cbn; finish_load.
Qed.

Lemma kubeconfig_load_not_home (events : list Event) :
  forallb is_kubeconfig_load events = true -> ~ In EvUserHomeDir events.
Proof.
  intros Hall Hin. rewrite forallb_forall in Hall. now apply Hall in Hin.
Qed.

(** With --kubeconfig given, Complete uses that path and does not ask for
    the home directory; without it, it asks for the home directory and
    uses Join(home, ".kube", "config").  When the home directory cannot be
    resolved, Complete returns that error wrapped with "can't get home dir"
    and has read no kubeconfig. *)
Theorem Complete_kubeconfig_path (id : string) (s : State W) :
  let flag := ConfigFlags_KubeConfig (opts s) in
  let done := snd (Complete [id] s) in
  exists events,
    added s done events /\
    (In EvUserHomeDir events <-> flag = ""%string) /\
    KubeConfig (opts done) =
      (if (flag =? "")%string
       then match os_UserHomeDir (world s) with
            | inl home => filepath_Join [home; ".kube"; "config"]%string
            | inr _ => KubeConfig (opts s)
            end
       else flag) /\
    (flag = ""%string ->
     forall e, os_UserHomeDir (world s) = inr e ->
               fst (Complete [id] s) = Ret (Some (withMessage e "can't get home dir")) /\
               filter is_kubeconfig_load events = []).
Proof.
  intros flag done. subst flag done. rewrite (Complete_one id s).
  set (tokenEvents := if (GitLabAPIToken (opts s) =? "")%string
                      then [EvGetenv "GITLAB_API_TOKEN"] else []).
  assert (Htoken : ~ In EvUserHomeDir tokenEvents /\ filter is_kubeconfig_load tokenEvents = []).
  { subst tokenEvents. destruct (_ =? "")%string; cbn; split; try reflexivity;
      intuition discriminate. }
  destruct Htoken as [HtokenHome HtokenLoad].
  set (o1 := set_GitLabAPIToken _ _).
  set (s0 := {| opts := o1; world := world s; trace := trace s ++ tokenEvents |}).
  assert (Hsame : ConfigFlags_KubeConfig o1 = ConfigFlags_KubeConfig (opts s)) by reflexivity.
  assert (Hkeep : KubeConfig o1 = KubeConfig (opts s)) by reflexivity.
  destruct (ConfigFlags_KubeConfig (opts s) =? "")%string eqn:Hflag.
  - apply String.eqb_eq in Hflag.
    destruct (os_UserHomeDir (world s)) as [home | e] eqn:Hhome.
    + destruct (Complete_load_effect
                  (set_KubeConfig (filepath_Join [home; ".kube"; "config"]%string) o1)
                  (world s)) as (r & o' & events & Hrun & Hpath & Hload).
      assert (Heq : Complete_kubeconfig s0 =
                    (r, {| opts := o'; world := world s;
                           trace := (trace s0 ++ [EvUserHomeDir]) ++ events |})).
      { unfold s0, Complete_kubeconfig, bind, get_opts, modify_opts, query.
        cbn [opts world trace s0]. rewrite Hsame, Hflag.
        cbn [negb String.eqb opts world trace]. rewrite Hhome.
        cbn [opts world trace]. apply Hrun. }
      rewrite Heq. cbn [fst snd opts trace s0].
      exists (tokenEvents ++ [EvUserHomeDir] ++ events).
      split; [unfold added; cbn [trace]; now rewrite <- !app_assoc | split; [| split]].
      * split; [intros _; exact Hflag |]. intros _. rewrite !in_app_iff. right. left. now left.
      * exact Hpath.
      * intros _ e He. discriminate He.
    + assert (Heq : Complete_kubeconfig s0 =
                    (Ret (Some (withMessage e "can't get home dir")),
                     {| opts := o1; world := world s;
                        trace := trace s0 ++ [EvUserHomeDir] |})).
      { unfold s0, Complete_kubeconfig, bind, get_opts, query, ret.
        cbn [opts world trace s0]. rewrite Hsame, Hflag.
        cbn [negb String.eqb opts world trace]. now rewrite Hhome. }
      rewrite Heq. cbn [fst snd opts trace s0].
      exists (tokenEvents ++ [EvUserHomeDir]).
      split; [unfold added; cbn [trace]; now rewrite <- !app_assoc | split; [| split]].
      * split; [intros _; exact Hflag |]. intros _. rewrite in_app_iff. right. now left.
      * exact Hkeep.
      * intros _ e' He'. injection He' as <-. split; [reflexivity |].
        rewrite filter_app, HtokenLoad. reflexivity.
  - destruct (Complete_load_effect
                (set_KubeConfig (ConfigFlags_KubeConfig (opts s)) o1) (world s))
      as (r & o' & events & Hrun & Hpath & Hload).
    assert (Heq : Complete_kubeconfig s0 =
                  (r, {| opts := o'; world := world s; trace := trace s0 ++ events |})).
    { unfold s0, Complete_kubeconfig, bind, get_opts, modify_opts.
      cbn [opts world trace s0]. rewrite Hsame, Hflag.
      cbn [negb opts world trace]. apply Hrun. }
    rewrite Heq. cbn [fst snd opts trace s0].
    exists (tokenEvents ++ events).
    apply String.eqb_neq in Hflag.
    split; [unfold added; cbn [trace]; now rewrite <- !app_assoc | split; [| split]].
    + split; [| intros Hempty; contradiction].
      rewrite in_app_iff. intros [Hin | Hin]; [contradiction |].
      now apply kubeconfig_load_not_home in Hin.
    + exact Hpath.
    + intros Hempty. contradiction.
Qed.


(** ** Properties kept along a program *)

Lemma preserves_ret (I : State W -> Prop) {A : Type} (a : A) : preserves W I (ret a).
Proof. now intros s Hs. Qed.

Lemma preserves_panic (I : State W -> Prop) {A : Type} (msg : string) :
  preserves W I (@panic W A msg).
Proof. now intros s Hs. Qed.

Lemma preserves_get_opts (I : State W -> Prop) : preserves W I get_opts.
Proof. now intros s Hs. Qed.

Lemma preserves_bind (I : State W -> Prop) {A B : Type} (m : M W A) (k : A -> M W B) :
  preserves W I m -> (forall a, preserves W I (k a)) -> preserves W I (bind m k).
Proof.
  intros Hm Hk s Hs. unfold bind. specialize (Hm s Hs).
  destruct (m s) as [[a | msg] s']; cbn [snd] in Hm; [now apply Hk | exact Hm].
Qed.

Lemma preserves_modify_opts (I : State W -> Prop)
    (f : GitLabBootstrapOptions -> GitLabBootstrapOptions) :
  (forall s, I s -> I {| opts := f (opts s); world := world s; trace := trace s |}) ->
  preserves W I (modify_opts f).
Proof. intros Hf s Hs. now apply Hf. Qed.

Lemma preserves_emit (I : State W -> Prop) (e : Event) :
  (forall s, I s -> I {| opts := opts s; world := world s; trace := trace s ++ [e] |}) ->
  preserves W I (emit e).
Proof. intros He s Hs. now apply He. Qed.

Lemma preserves_query (I : State W -> Prop) {A : Type} (e : Event) (f : W -> A) :
  (forall s, I s -> I {| opts := opts s; world := world s; trace := trace s ++ [e] |}) ->
  preserves W I (query e f).
Proof. intros He s Hs. now apply He. Qed.

Lemma untouched_opts (w : W) (s : State W) (o : GitLabBootstrapOptions) :
  untouched w s -> untouched w {| opts := o; world := world s; trace := trace s |}.
Proof. now intros [Hworld Htrace]. Qed.

Lemma untouched_event (w : W) (s : State W) (e : Event) :
  is_kubernetes_call e = false ->
  untouched w s ->
  untouched w {| opts := opts s; world := world s; trace := trace s ++ [e] |}.
Proof.
  intros He [Hworld Htrace]. split; [exact Hworld |].
  apply Forall_app. split; [exact Htrace | now constructor].
Qed.

Ltac untouched_step :=
  match goal with
  | |- preserves _ _ (bind _ _) => apply preserves_bind; [| intros ?]
  | |- preserves _ _ (ret _) => apply preserves_ret
  | |- preserves _ _ (panic _) => apply preserves_panic
  | |- preserves _ _ get_opts => apply preserves_get_opts
  | |- preserves _ _ (modify_opts _) =>
      apply preserves_modify_opts; intros ? ?; now apply untouched_opts
  | |- preserves _ _ (emit _) =>
      apply preserves_emit; intros ? ?; now apply untouched_event
  | |- preserves _ _ (query _ _) =>
      apply preserves_query; intros ? ?; now apply untouched_event
  | |- preserves _ _ (if ?c then _ else _) => destruct c
  | |- preserves _ _ (match ?x with _ => _ end) => destruct x
  end.

Lemma Complete_untouched (w : W) (args : list string) :
  preserves W (untouched w) (Complete args).
Proof.
  unfold Complete, Complete_kubeconfig, Complete_load. repeat untouched_step.
Qed.

Lemma Validate_untouched (w : W) : preserves W (untouched w) Validate.
Proof. unfold Validate, gitlabAPI. repeat untouched_step. Qed.

(** Nothing reaches the cluster before the checks are through: Complete
    and Validate leave the world as it was and issue no Kubernetes request,
    and when either does not return nil the command stops with its outcome,
    before Run. *)
Theorem validation_precedes_cluster_changes
    (args : list string) (o : GitLabBootstrapOptions) (w : W) :
  let completed := Complete args (start o w) in
  let validated := Validate (snd completed) in
  untouched w (snd completed) /\
  untouched w (snd validated) /\
  (fst completed <> Ret None -> RunE args (start o w) = completed) /\
  (fst completed = Ret None -> fst validated <> Ret None ->
   RunE args (start o w) = validated).
Proof.
  intros completed validated.
  assert (Hstart : untouched w (start o w)) by (split; [reflexivity | constructor]).
  assert (Hcompleted : untouched w (snd completed))
    by (apply Complete_untouched; exact Hstart).
  assert (Hvalidated : untouched w (snd validated))
    by (apply Validate_untouched; exact Hcompleted).
  split; [exact Hcompleted | split; [exact Hvalidated | split]].
  - intros Hfailed. unfold RunE.
    destruct completed as [[[e |] | msg] s1] eqn:Hrun; subst completed.
    + exact (andThen_error _ _ _ _ _ Hrun).
    + now contradiction Hfailed.
    + exact (andThen_panic _ _ _ _ _ Hrun).
  - intros Hnil Hfailed. unfold RunE.
    destruct completed as [r s1] eqn:Hrun. cbn [fst] in Hnil. subst r completed.
    rewrite (andThen_nil _ _ _ _ Hrun). cbn [snd] in validated.
    destruct validated as [[[e |] | msg] s2] eqn:Hrun2; subst validated.
    + exact (andThen_error _ _ _ _ _ Hrun2).
    + now contradiction Hfailed.
    + exact (andThen_panic _ _ _ _ _ Hrun2).
Qed.

(** ** The errors the command can return *)

Lemma returns_ret {A : Type} (R : A -> Prop) (a : A) : R a -> returns W R (ret a).
Proof. intros Ha s. exact Ha. Qed.

Lemma returns_panic {A : Type} (R : A -> Prop) (msg : string) : returns W R (panic msg).
Proof. intros s. exact I. Qed.

Lemma returns_bind {A B : Type} (Q : A -> Prop) (R : B -> Prop)
    (m : M W A) (k : A -> M W B) :
  returns W Q m -> (forall a, Q a -> returns W R (k a)) -> returns W R (bind m k).
Proof.
  intros Hm Hk s. unfold bind. specialize (Hm s).
  destruct (m s) as [[a | msg] s']; cbn [fst] in *; [now apply Hk | exact I].
Qed.

Lemma returns_any {A : Type} (m : M W A) : returns W (fun _ => True) m.
Proof. intros s. now destruct (fst (m s)). Qed.

Lemma returns_then {A B : Type} (R : B -> Prop) (m : M W A) (k : A -> M W B) :
  (forall a, returns W R (k a)) -> returns W R (bind m k).
Proof. intros Hk. apply (returns_bind (fun _ => True)); [apply returns_any | auto]. Qed.

Lemma returns_andThen (m k : M W goerror) :
  returns W known m -> returns W known k -> returns W known (andThen m k).
Proof.
  intros Hm Hk. unfold andThen. apply (returns_bind known); [exact Hm |].
  intros [e |] He; [now apply returns_ret | exact Hk].
Qed.

Ltac known_message :=
  cbn; repeat first [ exact I | left; reflexivity | right ].

Ltac returns_step :=
  match goal with
  | |- returns _ _ (bind _ _) => apply returns_then; intros ?
  | |- returns _ _ (ret _) => apply returns_ret; known_message
  | |- returns _ _ (panic _) => apply returns_panic
  | |- returns _ _ (if ?c then _ else _) => destruct c
  | |- returns _ _ (match ?x with _ => _ end) => destruct x
  end.

Lemma Complete_known (args : list string) : returns W known (Complete args).
Proof. unfold Complete, Complete_kubeconfig, Complete_load. repeat returns_step. Qed.

Lemma Validate_known : returns W known Validate.
Proof. unfold Validate, gitlabAPI. repeat returns_step. Qed.

Lemma CreateServiceAccount_known : returns W known CreateServiceAccount.
Proof. unfold CreateServiceAccount, clientset, Println. repeat returns_step. Qed.

Lemma CreateClusterRoleBinding_known : returns W known CreateClusterRoleBinding.
Proof. unfold CreateClusterRoleBinding, clientset, Println. repeat returns_step. Qed.

Lemma SaveServiceAccountToken_known : returns W known SaveServiceAccountToken.
Proof.
  intros s. destruct (KubeClientSet (opts s)) as [cs |] eqn:Hcs.
  - destruct (ServiceAccounts_Get (world s) cs "kube-system" "gitlab-admin")
      as [sa | e] eqn:Hget.
    + rewrite (SaveServiceAccountToken_after_scan s cs sa _ _ Hcs Hget
                 (scan_secrets_run (v1.Secrets sa) "")).
      cbn [fst]. destruct (Secrets_Get _ _ _ _); known_message.
    + unfold SaveServiceAccountToken. unfold_prog. cbn. rewrite Hcs. cbn. rewrite Hget.
      known_message.
  - unfold SaveServiceAccountToken. unfold_prog. cbn. now rewrite Hcs.
Qed.

Lemma AddClusterToGitLab_known : returns W known AddClusterToGitLab.
Proof.
  unfold AddClusterToGitLab. apply returns_then. intros o.
  destruct (GitLabGroupCluster o); apply returns_andThen;
    try (apply returns_ret; exact I);
    unfold addClusterToGroup, addClusterToProject, gitlabAPI, Println, Printf;
    repeat returns_step.
Qed.

(** Whatever the arguments, the options and the world, an error the command
    returns has, as its outermost message, one of the seventeen messages of
    [messages].  "no data in serviceaccount token" is not among them: line
    259 never produces an error. *)
Theorem RunE_error_messages (args : list string) (s : State W) (e : error) :
  fst (RunE args s) = Ret (Some e) ->
  In (outer_message e) messages /\
  outer_message e <> "no data in serviceaccount token"%string.
Proof.
  intros Hrun.
  assert (Hknown : returns W known (RunE args)).
  { unfold RunE, Run.
    repeat first [ apply returns_andThen | apply returns_ret; exact I ].
    - apply Complete_known.
    - apply Validate_known.
    - apply CreateServiceAccount_known.
    - apply CreateClusterRoleBinding_known.
    - apply SaveServiceAccountToken_known.
    - apply AddClusterToGitLab_known. }
  specialize (Hknown s). rewrite Hrun in Hknown. cbn in Hknown.
  split.
  - exact Hknown.
  - intros Hblank. rewrite Hblank in Hknown.
    repeat (destruct Hknown as [Hknown | Hknown]; [discriminate Hknown |]).
    exact Hknown.
Qed.

(** ** The command does not read through a nil handle *)

Lemma Complete_load_panic (s : State W) (msg : string) :
  fst (Complete_load s) = Panic msg ->
  exists api,
    clientcmd_LoadFromFile (world s) (KubeConfig (opts s)) = inl api /\
    clientcmdapi.CurrentContext api <> ""%string /\
    clientcmdapi.lookup (clientcmdapi.CurrentContext api) (clientcmdapi.Contexts api) = None.
Proof.
  unfold Complete_load. unfold_prog. cbn.
  destruct (clientcmd_BuildConfigFromFlags _ _ _) as [config | e]; cbn; [| discriminate].
  destruct (clientcmd_LoadFromFile _ _) as [api | e]; cbn; [| discriminate].
  destruct (_ <=? 0)%nat; cbn; [discriminate |].
  destruct (_ =? "")%string eqn:Hcurrent; cbn; [discriminate |].
  destruct (clientcmdapi.lookup _ _) as [ctx |] eqn:Hctx; cbn.
  - destruct (kubernetes_NewForConfig _ _); cbn; discriminate.
  - intros _. exists api. apply String.eqb_neq in Hcurrent. now repeat split.
Qed.

Lemma Complete_panic (args : list string) (s : State W) (msg : string) :
  fst (Complete args s) = Panic msg ->
  exists path api,
    clientcmd_LoadFromFile (world s) path = inl api /\
    clientcmdapi.CurrentContext api <> ""%string /\
    clientcmdapi.lookup (clientcmdapi.CurrentContext api) (clientcmdapi.Contexts api) = None.
Proof.
  destruct args as [| id [| ? ?]]; [discriminate | | discriminate].
  rewrite (Complete_one id s).
  set (s0 := {| opts := _; world := world s; trace := _ |}).
  destruct (negb (ConfigFlags_KubeConfig (opts s0) =? "")%string) eqn:Hflag.
  - assert (Heq : Complete_kubeconfig s0 =
                  Complete_load
                    {| opts := set_KubeConfig (ConfigFlags_KubeConfig (opts s0)) (opts s0);
                       world := world s0; trace := trace s0 |}).
    { unfold Complete_kubeconfig, bind, get_opts, modify_opts. now rewrite Hflag. }
    rewrite Heq. intros Hpanic. apply Complete_load_panic in Hpanic.
    destruct Hpanic as (api & Hapi & Hcurrent & Hctx). eexists. exists api.
    split; [exact Hapi | now split].
  - destruct (os_UserHomeDir (world s0)) as [home | e] eqn:Hhome.
    + assert (Heq : Complete_kubeconfig s0 =
                    Complete_load
                      {| opts := set_KubeConfig
                                   (filepath_Join [home; ".kube"; "config"]%string) (opts s0);
                         world := world s0; trace := trace s0 ++ [EvUserHomeDir] |}).
      { unfold Complete_kubeconfig, bind, get_opts, modify_opts, query.
        rewrite Hflag. cbn [opts world trace]. now rewrite Hhome. }
      rewrite Heq. intros Hpanic. apply Complete_load_panic in Hpanic.
      destruct Hpanic as (api & Hapi & Hcurrent & Hctx). eexists. exists api.
      split; [exact Hapi | now split].
    + unfold Complete_kubeconfig, bind, get_opts, query, ret.
      rewrite Hflag. cbn [opts world trace]. rewrite Hhome. discriminate.
Qed.

Lemma Complete_leaves_clientset (args : list string) (s : State W) :
  fst (Complete args s) = Ret None ->
  exists cs, KubeClientSet (opts (snd (Complete args s))) = Some cs.
Proof.
  destruct args as [| id [| ? ?]]; [discriminate | | discriminate].
  rewrite (Complete_one id s). intros Hnil.
  apply Complete_kubeconfig_success in Hnil.
  destruct Hnil as (path & config & api & ctx & clientset & _ & _ & _ & _ & Hopts & _).
  exists clientset. now rewrite Hopts.
Qed.

(** Validate returns; it keeps the client set, and leaves a GitLab client
    when it returns nil. *)
Lemma Validate_returns (s : State W) :
  exists err,
    fst (Validate s) = Ret err /\
    KubeClientSet (opts (snd (Validate s))) = KubeClientSet (opts s) /\
    (err = None -> GitLabAPI (opts (snd (Validate s))) <> None).
Proof.
  unfold Validate, gitlabAPI. unfold_prog. cbn.
  destruct (GitLabAPIToken (opts s) =? "")%string; cbn;
    [eexists; repeat split; discriminate |].
  destruct (GitLabProjectID (opts s) =? "")%string; cbn;
    [eexists; repeat split; discriminate |].
  destruct (GitLabURL (opts s) =? "")%string; cbn;
    destruct (GitLabGroupCluster (opts s)); cbn;
    match goal with
    | |- context [match ?q with inl _ => _ | inr _ => _ end] => destruct q
    end; cbn; eexists; repeat split; discriminate.
Qed.

Lemma CreateServiceAccount_returns (s : State W) (cs : kubernetes.Clientset) :
  KubeClientSet (opts s) = Some cs ->
  exists err,
    fst (CreateServiceAccount s) = Ret err /\ opts (snd (CreateServiceAccount s)) = opts s.
Proof.
  intros Hcs. unfold CreateServiceAccount. unfold_prog. cbn. rewrite Hcs. cbn.
  destruct (ServiceAccounts_Get _ _ _ _); cbn; [eexists; now split |].
  destruct (fst (ServiceAccounts_Create _ _ _ _)); cbn; eexists; now split.
Qed.

Lemma CreateClusterRoleBinding_returns (s : State W) (cs : kubernetes.Clientset) :
  KubeClientSet (opts s) = Some cs ->
  exists err,
    fst (CreateClusterRoleBinding s) = Ret err /\
    opts (snd (CreateClusterRoleBinding s)) = opts s.
Proof.
  intros Hcs. unfold CreateClusterRoleBinding. unfold_prog. cbn. rewrite Hcs. cbn.
  destruct (ClusterRoleBindings_Get _ _ _); cbn; [eexists; now split |].
  destruct (fst (ClusterRoleBindings_Create _ _ _)); cbn; eexists; now split.
Qed.

Lemma SaveServiceAccountToken_returns (s : State W) (cs : kubernetes.Clientset) :
  KubeClientSet (opts s) = Some cs ->
  exists err,
    fst (SaveServiceAccountToken s) = Ret err /\
    same_but_token (opts s) (opts (snd (SaveServiceAccountToken s))).
Proof.
  intros Hcs.
  destruct (ServiceAccounts_Get (world s) cs "kube-system" "gitlab-admin")
    as [sa | e] eqn:Hget.
  - rewrite (SaveServiceAccountToken_after_scan s cs sa _ _ Hcs Hget
               (scan_secrets_run (v1.Secrets sa) "")).
    cbn [fst snd opts]. eexists. split; [reflexivity |].
    destruct (Secrets_Get _ _ _ _) as [secret | e]; [| reflexivity].
    destruct (_ =? "")%string; reflexivity.
  - unfold SaveServiceAccountToken. unfold_prog. cbn. rewrite Hcs. cbn. rewrite Hget.
    cbn. eexists. now split.
Qed.

Lemma AddClusterToGitLab_returns (s : State W) (api : gitlab.Client) :
  GitLabAPI (opts s) = Some api ->
  (forall w c id opt pc,
      fst (ProjectCluster_AddCluster w c id opt) = inl pc -> gitlab.pc_Project pc <> None) ->
  (forall w c id opt gc,
      fst (GroupCluster_AddCluster w c id opt) = inl gc -> gitlab.gc_Group gc <> None) ->
  exists err, fst (AddClusterToGitLab s) = Ret err.
Proof.
  intros Hapi Hproject Hgroup.
  unfold AddClusterToGitLab, addClusterToGroup, addClusterToProject.
  unfold_prog. cbn. destruct (GitLabGroupCluster (opts s)); cbn; rewrite Hapi; cbn.
  - destruct (fst (GroupCluster_AddCluster _ _ _ _)) as [gc | e] eqn:Hadd; cbn;
      [| eexists; reflexivity].
    apply Hgroup in Hadd. destruct (gitlab.gc_Group gc); [| contradiction].
    cbn. eexists; reflexivity.
  - destruct (fst (ProjectCluster_AddCluster _ _ _ _)) as [pc | e] eqn:Hadd; cbn;
      [| eexists; reflexivity].
    apply Hproject in Hadd. destruct (gitlab.pc_Project pc); [| contradiction].
    cbn. eexists; reflexivity.
Qed.

Lemma andThen_returns (m k : M W goerror) (s : State W) (err : goerror) :
  fst (m s) = Ret err ->
  (err = None -> exists err', fst (k (snd (m s))) = Ret err') ->
  exists err', fst (andThen m k s) = Ret err'.
Proof.
  intros Hm Hk. unfold andThen, bind.
  destruct (m s) as [r s']. cbn [fst snd] in *. subst r.
  destruct err as [e |]; [eexists; reflexivity | now apply Hk].
Qed.

(** Provided the current context of a parsed kubeconfig is one of its
    contexts, and a cluster-add response carries its project or group, the
    command returns, nil or an error, and does not panic: the client set is
    in place before Run reads it and the GitLab client before the
    registration reads it, whatever the arguments, the flags and the
    answers of the world. *)
Theorem RunE_does_not_panic (args : list string) (o : GitLabBootstrapOptions) (w : W) :
  (forall path api,
      clientcmd_LoadFromFile w path = inl api ->
      clientcmdapi.CurrentContext api <> ""%string ->
      clientcmdapi.lookup (clientcmdapi.CurrentContext api) (clientcmdapi.Contexts api)
      <> None) ->
  (forall w' c id opt pc,
      fst (ProjectCluster_AddCluster w' c id opt) = inl pc -> gitlab.pc_Project pc <> None) ->
  (forall w' c id opt gc,
      fst (GroupCluster_AddCluster w' c id opt) = inl gc -> gitlab.gc_Group gc <> None) ->
  exists err, fst (RunE args (start o w)) = Ret err.
Proof.
  intros Hcontext Hproject Hgroup. unfold RunE.
  destruct (fst (Complete args (start o w))) as [err | msg] eqn:Hcomplete.
  2:{ apply Complete_panic in Hcomplete.
      destruct Hcomplete as (path & api & Hapi & Hcurrent & Hctx).
      now destruct (Hcontext path api Hapi Hcurrent). }
  apply (andThen_returns _ _ _ err Hcomplete). intros ->.
  destruct (Complete_leaves_clientset args (start o w) Hcomplete) as (cs & Hcs).
  set (s1 := snd (Complete args (start o w))) in *.
  destruct (Validate_returns s1) as (err & Hvalidate & Hkeep & Hclient).
  apply (andThen_returns _ _ _ err Hvalidate). intros ->.
  set (s2 := snd (Validate s1)) in *.
  assert (Hcs2 : KubeClientSet (opts s2) = Some cs) by now rewrite Hkeep.
  destruct (GitLabAPI (opts s2)) as [client |] eqn:Hclient2; [| now destruct Hclient].
  assert (Hrun : exists err, fst (Run s2) = Ret err);
    [| destruct Hrun as (err & Hrun);
       apply (andThen_returns _ _ _ err Hrun); intros _; eexists; reflexivity].
  unfold Run.
  destruct (CreateServiceAccount_returns s2 cs Hcs2) as (err & Hstep & Hopts).
  apply (andThen_returns _ _ _ err Hstep). intros ->.
  set (s3 := snd (CreateServiceAccount s2)) in *.
  assert (Hcs3 : KubeClientSet (opts s3) = Some cs) by now rewrite Hopts.
  destruct (CreateClusterRoleBinding_returns s3 cs Hcs3) as (err & Hstep' & Hopts').
  apply (andThen_returns _ _ _ err Hstep'). intros ->.
  set (s4 := snd (CreateClusterRoleBinding s3)) in *.
  assert (Hcs4 : KubeClientSet (opts s4) = Some cs) by now rewrite Hopts'.
  destruct (SaveServiceAccountToken_returns s4 cs Hcs4) as (err & Hstep'' & Hsame).
  apply (andThen_returns _ _ _ err Hstep''). intros ->.
  set (s5 := snd (SaveServiceAccountToken s4)) in *.
  assert (Hclient5 : GitLabAPI (opts s5) = Some client).
  { apply (f_equal GitLabAPI) in Hsame. cbn in Hsame. rewrite <- Hsame, Hopts', Hopts.
    exact Hclient2. }
  destruct (AddClusterToGitLab_returns s5 client Hclient5 Hproject Hgroup) as (err & Hadd).
  apply (andThen_returns _ _ _ err Hadd). intros _. eexists; reflexivity.
Qed.
End Steps.

(** * The further properties on the in-memory worlds *)

(** Two positional arguments. *)
Lemma Complete_argument_count_witness :
  Complete ["1234"; "5678"]%string (start noFlags workstation)
  = (Ret (fmt_Errorf "GitLab project id is required"), start noFlags workstation).
Proof.
  assert (Hlen : length ["1234"; "5678"]%string <> 1%nat) by discriminate.
  exact (proj1 (Complete_argument_count ["1234"; "5678"]%string
                  (start noFlags workstation) Hlen)).
Defined.

(** No token from the flag or the environment. *)
Lemma Validate_missing_credentials_witness :
  Validate noToken = (Ret (fmt_Errorf "GitLab API token is required"), noToken).
Proof.
  exact (Validate_missing_credentials noToken (or_introl eq_refl)).
Defined.

(** Validation of a group id GitLab knows. *)
Lemma Validate_result_witness :
  fst (Validate validating) = Ret None /\
  opts (snd (Validate validating))
  = set_GitLabAPI (gitlab.NewClient "glpat-secret") (opts validating).
Proof.
  assert (Htoken : GitLabAPIToken (opts validating) <> ""%string) by discriminate.
  assert (Hid : GitLabProjectID (opts validating) <> ""%string) by discriminate.
  pose proof (Validate_result validating Htoken Hid) as H. cbv zeta in H.
  destruct H as (Hopts & _ & Hresult).
  split; [exact Hresult | exact Hopts].
Defined.

(** The binding exists, with a role reference that differs from the one
    the program would send. *)
Lemma CreateClusterRoleBinding_existing_witness :
  fst (CreateClusterRoleBinding bootstrapped) = Ret None /\
  world (snd (CreateClusterRoleBinding bootstrapped)) = world bootstrapped.
Proof.
  pose proof (CreateClusterRoleBinding_existing bootstrapped cs adminBinding
                eq_refl eq_refl) as H.
  split; [exact (f_equal fst H) | exact (f_equal (fun r => world (snd r)) H)].
Defined.

(** The binding is missing. *)
Lemma CreateClusterRoleBinding_absent_witness :
  fst (CreateClusterRoleBinding bare) = Ret None /\
  trace (snd (CreateClusterRoleBinding bare))
  = [EvClusterRoleBindingsGet "gitlab-admin"; EvClusterRoleBindingsCreate crbSpec].
Proof.
  pose proof (CreateClusterRoleBinding_absent bare cs
                (quoted "clusterrolebindings" "gitlab-admin" "not found")
                eq_refl eq_refl) as H.
  cbv zeta in H.
  split; [exact (f_equal fst H) | exact (f_equal (fun r => trace (snd r)) H)].
Defined.

(** The caller may not create service accounts. *)
Lemma Run_stops_when_account_create_fails_witness :
  fst (Run readOnly)
  = Ret (Some (withMessage (Restricted.forbidden "serviceaccounts")
                           "unable to create service account")) /\
  trace (snd (Run readOnly))
  = [EvServiceAccountsGet "kube-system" "gitlab-admin";
     EvServiceAccountsCreate "kube-system" saSpec].
Proof.
  pose proof (Run_stops_when_account_create_fails readOnly cs
                (quoted "serviceaccounts" "gitlab-admin" "not found")
                (Restricted.forbidden "serviceaccounts")
                eq_refl eq_refl eq_refl) as H.
  split; [exact (f_equal fst H) | exact (f_equal (fun r => trace (snd r)) H)].
Defined.

(** The caller may create the account and not the binding. *)
Lemma Run_keeps_account_when_binding_create_fails_witness :
  fst (Run namespaceAdmin)
  = Ret (Some (withMessage (Restricted.forbidden "clusterrolebindings")
                           "unable to create clusterrolebinding")) /\
  serviceAccounts (Restricted.inner (world (snd (Run namespaceAdmin)))) = [saSpec].
Proof.
  pose proof (Run_keeps_account_when_binding_create_fails namespaceAdmin cs
                (quoted "serviceaccounts" "gitlab-admin" "not found")
                (quoted "clusterrolebindings" "gitlab-admin" "not found")
                (Restricted.forbidden "clusterrolebindings")
                saSpec
                {| Restricted.inner := with_serviceAccounts [saSpec] (mk [] [] []);
                   Restricted.mayCreateAccounts := true;
                   Restricted.mayCreateBindings := false |}
                eq_refl eq_refl eq_refl eq_refl eq_refl) as H.
  split; [exact (f_equal fst H)
         | exact (f_equal (fun r => serviceAccounts (Restricted.inner (world (snd r)))) H)].
Defined.

(** The references of the spec's example, the secret holding a token. *)
Lemma SaveServiceAccountToken_stores_token_witness :
  fst (SaveServiceAccountToken pair) = Ret None /\
  ServiceAccountToken (opts (snd (SaveServiceAccountToken pair)))
  = "eyJhbGciOiJSUzI1NiIs"%string.
Proof.
  assert (Htoken : v1.data_string (tokenSecret abc123 "eyJhbGciOiJSUzI1NiIs") "token"
                   <> ""%string) by discriminate.
  pose proof (SaveServiceAccountToken_stores_token pair cs (adminSA ["foo"; abc123])
                (tokenSecret abc123 "eyJhbGciOiJSUzI1NiIs") eq_refl eq_refl eq_refl Htoken)
    as H.
  split; [exact (f_equal fst H)
         | exact (f_equal (fun r => ServiceAccountToken (opts (snd r))) H)].
Defined.

(** No account in the cluster. *)
Lemma SaveServiceAccountToken_account_missing_witness :
  SaveServiceAccountToken bare
  = (Ret (Some (withMessage (quoted "serviceaccounts" "gitlab-admin" "not found")
                            "unable to get serviceaccount")),
     {| opts := opts bare; world := world bare;
        trace := [EvServiceAccountsGet "kube-system" "gitlab-admin"] |}).
Proof.
  exact (SaveServiceAccountToken_account_missing bare cs
           (quoted "serviceaccounts" "gitlab-admin" "not found") eq_refl eq_refl).
Defined.

(** A group registration answered with cluster 42. *)
Lemma addClusterToGroup_prints_url_witness :
  fst (addClusterToGroup registeringGroup) = Ret None /\
  In (EvStdout ("To finish up visit: https://gitlab.example/groups/team/clusters/42"
                  ++ " and install Helm and Runner." ++ nl)%string)
     (trace (snd (addClusterToGroup registeringGroup))).
Proof.
  pose proof (addClusterToGroup_prints_url registeringGroup
                (gitlab.NewClient "glpat-secret")
                {| gitlab.gc_ID := 42; gitlab.gc_Name := "dev-cluster";
                   gitlab.gc_Group := Some group |}
                group eq_refl eq_refl eq_refl) as H.
  cbv zeta in H. destruct H as (Hnil & Hadded).
  split; [exact Hnil |].
  unfold added in Hadded. rewrite Hadded. cbn. right. right. now left.
Defined.

(** A project id GitLab does not know. *)
Lemma AddClusterToGitLab_failure_witness :
  fst (AddClusterToGitLab unknownProject)
  = Ret (Some (withMessage notFound "unable to assign kubernetes cluster to project")).
Proof.
  exact (proj1 (AddClusterToGitLab_failure unknownProject
                  (gitlab.NewClient "glpat-secret") notFound eq_refl eq_refl)).
Defined.

(** A second run on a bootstrapped cluster. *)
Lemma Run_on_bootstrapped_cluster_witness :
  ServiceAccountToken (opts (snd (Run bootstrapped))) = "eyJhbGciOiJSUzI1NiIs"%string /\
  filter is_create_call (trace (snd (Run bootstrapped))) = [].
Proof.
  assert (Htoken : v1.data_string (tokenSecret abc123 "eyJhbGciOiJSUzI1NiIs") "token"
                   <> ""%string) by discriminate.
  pose proof (Run_on_bootstrapped_cluster bootstrapped cs (gitlab.NewClient "glpat-secret")
                (adminSA ["foo"; abc123]) adminBinding
                (tokenSecret abc123 "eyJhbGciOiJSUzI1NiIs")
                eq_refl eq_refl eq_refl eq_refl eq_refl Htoken) as H.
  cbv zeta in H. destruct H as (Hopts & prints & _ & _ & Hcreate).
  split; [exact (f_equal ServiceAccountToken Hopts) | exact Hcreate].
Defined.

(** A workstation with a kubeconfig in the home directory. *)
Lemma Complete_success_witness :
  exists clientset,
    KubeClientSet (opts (snd (Complete ["1234"]%string (start noFlags workstation))))
    = Some clientset /\
    ClusterName (opts (snd (Complete ["1234"]%string (start noFlags workstation))))
    = "dev-cluster"%string.
Proof.
  pose proof (Complete_success ["1234"]%string (start noFlags workstation) eq_refl) as H.
  cbv zeta in H.
  destruct H as (id & config & api & ctx & clientset & _ & _ & _ & _ & _ & _ & _
                 & Hapi & _ & Hctx & Hname & _ & Hcs & _).
  exists clientset. split; [exact Hcs |].
  rewrite Hname. injection Hapi as <-. now injection Hctx as <-.
Defined.


(** The command without its argument. *)
Lemma RunE_error_messages_witness :
  In "GitLab project id is required"%string messages.
Proof.
  exact (proj1 (RunE_error_messages [] (start noFlags workstation)
                  (errorString "GitLab project id is required") eq_refl)).
Defined.

(** The in-memory world answers every cluster-add with its project or
    group, and the workstation's kubeconfig defines its current context. *)
Lemma RunE_does_not_panic_witness :
  exists err, fst (RunE ["1234"]%string (start noFlags workstation)) = Ret err.
Proof.
  apply RunE_does_not_panic.
  - intros path api Hload Hcurrent.
    change (loadFromFile workstation path = inl api) in Hload.
    unfold loadFromFile, readKubeconfig, workstation, mk in Hload.
    cbn [kubeconfigs assoc] in Hload.
    destruct ("/home/dev/.kube/config" =? path)%string; [| discriminate].
    injection Hload as <-. discriminate.
  - intros w' c id opt pc. cbn. unfold addProjectCluster.
    destruct (getProject w' c id); cbn; [| discriminate].
    intros [= <-]. discriminate.
  - intros w' c id opt gc. cbn. unfold addGroupCluster.
    destruct (getGroup w' c id); cbn; [| discriminate].
    intros [= <-]. discriminate.
Defined.
